(** * Inventory store: a shallow embedding of [clean_inventory_system.py]

    The Python module keeps one global dictionary [stock_data] (item name to
    quantity), mutates it through [add_item] / [remove_item], reads it through
    [get_qty], [check_low_items] and [print_data], and persists it as a JSON
    object through [save_data] / [load_data].

    Layout of this file:
    - Python strings, dictionaries, values and exceptions;
    - the state-and-exception monad the module's functions run in;
    - the parts of the [json] library and of the built-in [int] the module
      calls;
    - the module's functions, statement by statement;
    - the properties of the module. *)

From Stdlib Require Import ZArith NArith List Bool Lia String Ascii.
From Stdlib Require DecimalZ DecimalPos DecimalN DecimalFacts.
Import ListNotations.
Local Open Scope Z_scope.

(** ** Python strings

    A Python 3 [str] is a sequence of Unicode code points; [ord] of a
    character is a natural number. *)

Definition char := N.
Definition str := list char.

(** A string literal of the source, read as a [str]. *)
Definition pystr (s : string) : str :=
  List.map N_of_ascii (list_ascii_of_string s).

Fixpoint str_eqb (a b : str) : bool :=
  match a, b with
  | [], [] => true
  | x :: a', y :: b' => N.eqb x y && str_eqb a' b'
  | _, _ => false
  end.

(** [str(n)] for an [int]: the decimal numeral, with a minus sign when
    negative. *)
Fixpoint chars_of_uint (d : Decimal.uint) : str :=
  match d with
  | Decimal.Nil => []
  | Decimal.D0 d => 48%N :: chars_of_uint d
  | Decimal.D1 d => 49%N :: chars_of_uint d
  | Decimal.D2 d => 50%N :: chars_of_uint d
  | Decimal.D3 d => 51%N :: chars_of_uint d
  | Decimal.D4 d => 52%N :: chars_of_uint d
  | Decimal.D5 d => 53%N :: chars_of_uint d
  | Decimal.D6 d => 54%N :: chars_of_uint d
  | Decimal.D7 d => 55%N :: chars_of_uint d
  | Decimal.D8 d => 56%N :: chars_of_uint d
  | Decimal.D9 d => 57%N :: chars_of_uint d
  end.

Definition str_of_int (z : Z) : str :=
  match Z.to_int z with
  | Decimal.Pos d => chars_of_uint d
  | Decimal.Neg d => 45%N :: chars_of_uint d
  end.

(** ** Python dictionaries with [str] keys

    A [dict] keeps its keys in insertion order and holds every key once.
    Assigning to a key that is present keeps its position; a new key goes to
    the end. *)

Section Dict.
Context {V : Type}.

Definition dict := list (str * V).

(** [d.get(k)] *)
Fixpoint dict_get (d : dict) (k : str) : option V :=
  match d with
  | [] => None
  | (k', v) :: r => if str_eqb k' k then Some v else dict_get r k
  end.

(** [k in d] *)
Definition dict_contains (d : dict) (k : str) : bool :=
  match dict_get d k with Some _ => true | None => false end.

(** [d.get(k, dflt)] *)
Definition dict_get_default (d : dict) (k : str) (dflt : V) : V :=
  match dict_get d k with Some v => v | None => dflt end.

(** [d[k] = v] *)
Fixpoint dict_set (d : dict) (k : str) (v : V) : dict :=
  match d with
  | [] => [(k, v)]
  | (k', v') :: r =>
      if str_eqb k' k then (k', v) :: r else (k', v') :: dict_set r k v
  end.

(** [del d[k]] (the caller has checked that [k] is present) *)
Fixpoint dict_del (d : dict) (k : str) : dict :=
  match d with
  | [] => []
  | (k', v') :: r =>
      if str_eqb k' k then r else (k', v') :: dict_del r k
  end.

(** [d.keys()], in iteration order *)
Definition dict_keys (d : dict) : list str := List.map fst d.

(** Every key occurs once: what Python guarantees of any [dict]. *)
Definition dict_wf (d : dict) : Prop := NoDup (dict_keys d).

(** [dict(pairs)]: later pairs overwrite earlier ones. *)
Definition dict_of_pairs (pairs : list (str * V)) : dict :=
  fold_left (fun d kv => dict_set d (fst kv) (snd kv)) pairs [].
End Dict.

Arguments dict : clear implicits.

(** ** Python values

    The values the module can be handed as arguments or can read from a JSON
    file.  A [float] is kept as the numeral it was read from: the module only
    ever passes it to [int]. *)

Inductive pyfloat :=
| FNaN
| FInfinity
| FNegInfinity
| FDecimal (literal : str).

#[local] Set Warnings "-register-all".

Inductive pyval :=
| PNone
| PBool (b : bool)
| PInt (n : Z)
| PFloat (f : pyfloat)
| PStr (s : str)
| PList (l : list pyval)
| PDict (d : list (pyval * pyval)).

(** [isinstance(v, str)] *)
Definition isinstance_str (v : pyval) : bool :=
  match v with PStr _ => true | _ => false end.

(** [isinstance(v, int)]; [bool] is a subclass of [int]. *)
Definition isinstance_int (v : pyval) : bool :=
  match v with PInt _ | PBool _ => true | _ => false end.

(** [isinstance(v, dict)] *)
Definition isinstance_dict (v : pyval) : bool :=
  match v with PDict _ => true | _ => false end.

(** The characters of a value that is a [str]. *)
Definition str_value (v : pyval) : str :=
  match v with PStr s => s | _ => [] end.

(** The number an [int] (or [bool]) stands for in arithmetic and
    comparisons. *)
Definition int_value (v : pyval) : Z :=
  match v with
  | PInt n => n
  | PBool true => 1
  | _ => 0
  end.

(** Truth value of a [str]: [not s] holds of the empty string only. *)
Definition str_truth (s : str) : bool :=
  match s with [] => false | _ :: _ => true end.

(** ** Exceptions

    One constructor per [raise] statement of the module, and one per
    exception that the library calls it makes can raise. *)

Inductive exc_class :=
| Exception
| TypeError
| ValueError
| KeyError
| OverflowError
| OSError
| FileNotFoundError
| JSONDecodeError
| UnicodeDecodeError.

Inductive exn :=
| ItemNotNonEmptyStr                       (* TypeError("item must be a non-empty string") *)
| QtyNotInteger                            (* TypeError("qty must be an integer") *)
| QtyNegative                              (* ValueError("qty must be non-negative") *)
| QtyNotPositive                           (* ValueError("qty must be positive") *)
| ItemNotFound (item : str)                (* KeyError(f"Item '{item}' not found in stock") *)
| KeyMissing (key : str)                   (* KeyError(key), from a subscript d[key] *)
| NotEnoughStock (item : str) (qty : pyval) (* ValueError(f"Not enough stock for '{item}' to remove {qty}") *)
| ThresholdInvalid                         (* ValueError("threshold must be a non-negative integer") *)
| NotAJSONObject                           (* ValueError("inventory file must contain a JSON object") *)
| IntTypeError                             (* int() argument of a type it does not convert *)
| IntValueError                            (* int() of a str that is no numeral, or of NaN *)
| IntOverflowError                         (* int() of an infinite float *)
| OpenNotFound (file : str)                (* open(): no such file *)
| OpenFailed (file : str)                  (* open(): any other OSError *)
| ReadUndecodable (file : str)             (* the bytes read are not UTF-8 *)
| JSONInvalid.                             (* json.load(): the text is not JSON *)

Definition exn_class (e : exn) : exc_class :=
  match e with
  | ItemNotNonEmptyStr | QtyNotInteger | IntTypeError => TypeError
  | QtyNegative | QtyNotPositive | NotEnoughStock _ _
  | ThresholdInvalid | NotAJSONObject | IntValueError => ValueError
  | ItemNotFound _ | KeyMissing _ => KeyError
  | IntOverflowError => OverflowError
  | OpenNotFound _ => FileNotFoundError
  | OpenFailed _ => OSError
  | ReadUndecodable _ => UnicodeDecodeError
  | JSONInvalid => JSONDecodeError
  end.

(** The class hierarchy, as far as the module's [except] clauses look. *)
Definition exc_class_eqb (a b : exc_class) : bool :=
  match a, b with
  | Exception, Exception | TypeError, TypeError | ValueError, ValueError
  | KeyError, KeyError | OverflowError, OverflowError | OSError, OSError
  | FileNotFoundError, FileNotFoundError
  | JSONDecodeError, JSONDecodeError
  | UnicodeDecodeError, UnicodeDecodeError => true
  | _, _ => false
  end.

Definition base_class (c : exc_class) : option exc_class :=
  match c with
  | Exception => None
  | FileNotFoundError => Some OSError
  | JSONDecodeError | UnicodeDecodeError => Some ValueError
  | TypeError | ValueError | KeyError | OverflowError | OSError =>
      Some Exception
  end.

Fixpoint subclass_upto (depth : nat) (c sup : exc_class) : bool :=
  exc_class_eqb c sup ||
  match depth with
  | O => false
  | S depth' =>
      match base_class c with
      | Some b => subclass_upto depth' b sup
      | None => false
      end
  end.

(** [issubclass(c, sup)]: no chain of bases is longer than two. *)
Definition issubclass (c sup : exc_class) : bool := subclass_upto 2 c sup.

(** Whether [except cls:] catches [e]. *)
Definition catches (cls : exc_class) (e : exn) : bool :=
  issubclass (exn_class e) cls.

(** The error kinds of the specification, by the statement that raises. *)
Inductive error_kind := InvalidArgument | NotFound | InsufficientStock | IOFailure | OtherError.

Definition kind_of (e : exn) : error_kind :=
  match e with
  | ItemNotNonEmptyStr | QtyNotInteger | QtyNegative | QtyNotPositive
  | ThresholdInvalid => InvalidArgument
  | ItemNotFound _ | KeyMissing _ => NotFound
  | NotEnoughStock _ _ => InsufficientStock
  | OpenNotFound _ | OpenFailed _ => IOFailure
  | _ => OtherError
  end.

(** ** The world the module runs in

    The global [stock_data], the files [open] can reach, the records handed
    to [logging] and the lines printed.  Log records are kept as structured
    events; the time stamps that [datetime.now()] and the log format put in
    front of them are left out. *)

Inductive file_node :=
| NoFile                    (* nothing at this path *)
| Unopenable                (* open() fails with an OSError that is not FileNotFoundError *)
| Undecodable               (* the bytes are not valid UTF-8 *)
| Text (content : str).     (* a readable text file *)

Record filesystem := mkFilesystem {
  node : str -> file_node;
  writable : str -> bool    (* whether open(path, "w") succeeds *)
}.

Inductive level := INFO | WARNING | ERROR.

Inductive event :=
| Added (qty : pyval) (item : str)          (* "Added {qty} of {item}" *)
| Removed (qty : pyval) (item : str)        (* "Removed {qty} of {item}" *)
| SkippedKey (k : pyval)                    (* "Skipping non-string key in inventory file: %r" *)
| SkippedValue (k : str) (v : pyval)        (* "Skipping key with non-integer value: %s=%r" *)
| Loaded (file : str)                       (* "Loaded inventory from %s" *)
| FileMissing (file : str)                  (* "Inventory file %s not found ..." *)
| InvalidJSON (file : str)                  (* "Invalid JSON in %s: %s" *)
| Unexpected (e : exn)                      (* "Unexpected error while loading data: %s" *)
| Saved (file : str)                        (* "Saved inventory to %s" *)
| SaveFailed (file : str) (e : exn).        (* "Failed to write inventory to %s: %s" *)

Record world := mkWorld {
  stock_data : dict Z;
  disk : filesystem;
  log : list (level * event);
  stdout : list str
}.

Definition with_stock (d : dict Z) (w : world) : world :=
  mkWorld d (disk w) (log w) (stdout w).

Definition with_disk (fs : filesystem) (w : world) : world :=
  mkWorld (stock_data w) fs (log w) (stdout w).

Definition with_log (l : list (level * event)) (w : world) : world :=
  mkWorld (stock_data w) (disk w) l (stdout w).

Definition with_stdout (o : list str) (w : world) : world :=
  mkWorld (stock_data w) (disk w) (log w) o.

(** ** State and exceptions

    A call either returns a value or raises; either way it leaves a world
    behind, the one in force when it returned or raised. *)

Inductive outcome (A : Type) :=
| Ret (a : A)
| Raise (e : exn).

Arguments Ret {A} a.
Arguments Raise {A} e.

Definition M (A : Type) : Type := world -> outcome A * world.

Definition ret {A} (a : A) : M A := fun w => (Ret a, w).

Definition raise {A} (e : exn) : M A := fun w => (Raise e, w).

Definition bind {A B} (c : M A) (k : A -> M B) : M B :=
  fun w =>
    match c w with
    | (Ret a, w') => k a w'
    | (Raise e, w') => (Raise e, w')
    end.

(** [try: body / except ...: handler]: [handler e] is [None] when no clause
    catches [e], which then propagates. *)
Definition try_except {A} (body : M A) (handler : exn -> option (M A)) : M A :=
  fun w =>
    match body w with
    | (Ret a, w') => (Ret a, w')
    | (Raise e, w') =>
        match handler e with
        | Some h => h w'
        | None => (Raise e, w')
        end
    end.

Definition gets {A} (f : world -> A) : M A := fun w => (Ret (f w), w).

Definition modify (f : world -> world) : M unit := fun w => (Ret tt, f w).

Declare Scope py_scope.
Delimit Scope py_scope with py.
Notation "x <- c ;; k" := (bind c (fun x => k))
  (at level 61, c at next level, right associativity) : py_scope.
Notation "c ;; k" := (bind c (fun _ => k))
  (at level 61, right associativity) : py_scope.
Local Open Scope py_scope.

(** [logging.info], [logging.warning], [logging.error] (and
    [logging.exception], which logs at level ERROR). *)
Definition logging (l : level) (e : event) : M unit :=
  modify (fun w => with_log (log w ++ [(l, e)]) w).

(** [print(...)]: one more line on standard output. *)
Definition print (line : str) : M unit :=
  modify (fun w => with_stdout (stdout w ++ [line]) w).

Definition lift {A} (o : outcome A) : M A := fun w => (o, w).

(** ** The built-in [int]

    [int(v)] of an [int] or a [bool] is its value; of a [float] its
    truncation towards zero (ValueError on NaN, OverflowError on an
    infinity); of a [str] the decimal numeral it holds (ValueError when it
    holds none); of anything else a TypeError.

    What [int] takes from the interpreter's Unicode database and from its
    floating-point arithmetic is not part of the module and is a parameter
    here: which non-ASCII code points are white space, which are decimal
    digits and of what value, and the integer part of the float a numeral
    denotes.  The interpreter's optional limit on the length of decimal
    numerals ([sys.set_int_max_str_digits]) is taken to be switched off. *)

Record builtins := mkBuiltins {
  unicode_isspace : char -> bool;
  unicode_todecimal : char -> option N;
  (** [int(float(literal))], [None] when [float(literal)] is infinite *)
  float_trunc : str -> option Z
}.

Module PyInt.
Local Open Scope N_scope.

(** White space and digits of ASCII, as [int] strips and reads them. *)
Definition ascii_isspace (c : char) : bool :=
  ((9 <=? c) && (c <=? 13)) || (c =? 32).

Definition ascii_isdigit (c : char) : bool :=
  (48 <=? c) && (c <=? 57).

Fixpoint skip_spaces (s : str) : str :=
  match s with
  | c :: r => if ascii_isspace c then skip_spaces r else s
  | [] => []
  end.

(** Digits, with single underscores between them, read in base ten.  The
    caller has checked that the numeral begins with a digit. *)
Fixpoint int_digits (acc : Z) (s : str) : option (Z * str) :=
  match s with
  | c :: r =>
      if ascii_isdigit c then int_digits (10 * acc + (Z.of_N c - 48))%Z r
      else if c =? 95 then
        match r with
        | d :: _ => if ascii_isdigit d then int_digits acc r else None
        | [] => None
        end
      else Some (acc, s)
  | [] => Some (acc, [])
  end.

(** The numeral of an ASCII string: white space, an optional sign, digits,
    white space. *)
Definition int_of_ascii (s : str) : option Z :=
  let s1 := skip_spaces s in
  let '(negative, s2) :=
    match s1 with
    | c :: r => if c =? 43 then (false, r)
                else if c =? 45 then (true, r)
                else (false, s1)
    | [] => (false, s1)
    end in
  match s2 with
  | c :: _ =>
      if ascii_isdigit c then
        match int_digits 0%Z s2 with
        | Some (n, rest) =>
            match skip_spaces rest with
            | [] => Some (if negative then (- n)%Z else n)
            | _ :: _ => None
            end
        | None => None
        end
      else None
  | [] => None
  end.

Section WithBuiltins.
Variable B : builtins.

(** Non-ASCII white space becomes a blank and a non-ASCII decimal digit
    the ASCII digit of its value; any other non-ASCII character becomes
    ['?'], which no numeral contains. *)
Definition to_ascii (c : char) : char :=
  if c <? 127 then c
  else if unicode_isspace B c then 32
  else match unicode_todecimal B c with
       | Some d => if d <? 10 then 48 + d else 63
       | None => 63
       end.

Definition int_of_str (s : str) : option Z :=
  int_of_ascii (List.map to_ascii s).

Definition int_of_float (f : pyfloat) : outcome Z :=
  match f with
  | FNaN => Raise IntValueError
  | FInfinity | FNegInfinity => Raise IntOverflowError
  | FDecimal literal =>
      match float_trunc B literal with
      | Some z => Ret z
      | None => Raise IntOverflowError
      end
  end.

(** [int(v)] *)
Definition int (v : pyval) : outcome Z :=
  match v with
  | PInt n => Ret n
  | PBool b => Ret (if b then 1 else 0)%Z
  | PFloat f => int_of_float f
  | PStr s =>
      match int_of_str s with
      | Some z => Ret z
      | None => Raise IntValueError
      end
  | PNone | PList _ | PDict _ => Raise IntTypeError
  end.
End WithBuiltins.

End PyInt.

(** ** The [json] library: decoding

    [json.load(f)] is [json.loads(f.read())] with the default decoder:
    objects become [dict]s, arrays [list]s, strings [str]s, numerals without
    fraction or exponent [int]s and the others [float]s; [NaN], [Infinity]
    and [-Infinity] are accepted; control characters inside strings are
    not.  Every failure is a [JSONDecodeError], whatever its message. *)

Module Json.
Local Open Scope N_scope.

(** What a scanning function gives back: the value and the text after it,
    or a decoding error, or no answer because the recursion budget of the
    model ran out (shown below never to happen from [loads]). *)
Inductive parsed (A : Type) :=
| Parsed (a : A) (rest : str)
| Invalid
| OutOfFuel.

Arguments Parsed {A} a rest.
Arguments Invalid {A}.
Arguments OutOfFuel {A}.

(** [WHITESPACE]: blank, tab, line feed, carriage return. *)
Definition is_ws (c : char) : bool :=
  (c =? 32) || (c =? 9) || (c =? 10) || (c =? 13).

Fixpoint skip_ws (s : str) : str :=
  match s with
  | c :: r => if is_ws c then skip_ws r else s
  | [] => []
  end.

(** [s.startswith(prefix)], giving the text after the prefix. *)
Fixpoint strip_prefix (prefix s : str) : option str :=
  match prefix, s with
  | [], _ => Some s
  | p :: prefix', c :: s' => if p =? c then strip_prefix prefix' s' else None
  | _ :: _, [] => None
  end.

(** *** Strings *)

Definition hex_value (c : char) : option N :=
  if (48 <=? c) && (c <=? 57) then Some (c - 48)
  else if (97 <=? c) && (c <=? 102) then Some (c - 87)
  else if (65 <=? c) && (c <=? 70) then Some (c - 55)
  else None.

(** The four hexadecimal digits after [\u]. *)
Definition decode_uXXXX (h1 h2 h3 h4 : char) : option N :=
  match hex_value h1, hex_value h2, hex_value h3, hex_value h4 with
  | Some a, Some b, Some c, Some d => Some (((a * 16 + b) * 16 + c) * 16 + d)
  | _, _, _, _ => None
  end.

(** [BACKSLASH]: the one-letter escapes. *)
Definition BACKSLASH (esc : char) : option char :=
  if esc =? 34 then Some 34            (* quote *)
  else if esc =? 92 then Some 92       (* backslash *)
  else if esc =? 47 then Some 47       (* slash *)
  else if esc =? 98 then Some 8        (* backspace *)
  else if esc =? 102 then Some 12      (* form feed *)
  else if esc =? 110 then Some 10      (* line feed *)
  else if esc =? 114 then Some 13      (* carriage return *)
  else if esc =? 116 then Some 9       (* tab *)
  else None.

Definition is_high_surrogate (u : N) : bool := (0xd800 <=? u) && (u <=? 0xdbff).
Definition is_low_surrogate (u : N) : bool := (0xdc00 <=? u) && (u <=? 0xdfff).

(** The code point a surrogate pair stands for. *)
Definition join_surrogates (uni uni2 : N) : N :=
  0x10000 + N.lor (N.shiftl (uni - 0xd800) 10) (uni2 - 0xdc00).

Definition prepend (c : char) (r : option (str * str)) : option (str * str) :=
  match r with
  | Some (chars, rest) => Some (c :: chars, rest)
  | None => None
  end.

(** [scanstring(s, end)]: [s] is the text after the opening quote; the
    result is the decoded string and the text after the closing quote. *)
Fixpoint scanstring (s : str) : option (str * str) :=
  match s with
  | [] => None                                   (* unterminated *)
  | c :: r =>
      if c =? 34 then Some ([], r)
      else if c =? 92 then
        match r with
        | [] => None
        | esc :: r1 =>
            if esc =? 117 then
              match r1 with
              | h1 :: h2 :: h3 :: h4 :: r2 =>
                  match decode_uXXXX h1 h2 h3 h4 with
                  | None => None
                  | Some uni =>
                      if is_high_surrogate uni then
                        match r2 with
                        | b :: u :: r3 =>
                            if (b =? 92) && (u =? 117) then
                              match r3 with
                              | g1 :: g2 :: g3 :: g4 :: r4 =>
                                  match decode_uXXXX g1 g2 g3 g4 with
                                  | None => None
                                  | Some uni2 =>
                                      if is_low_surrogate uni2
                                      then prepend (join_surrogates uni uni2)
                                                   (scanstring r4)
                                      else prepend uni (scanstring r2)
                                  end
                              | _ => None
                              end
                            else prepend uni (scanstring r2)
                        | _ => prepend uni (scanstring r2)
                        end
                      else prepend uni (scanstring r2)
                  end
              | _ => None
              end
            else
              match BACKSLASH esc with
              | Some ch => prepend ch (scanstring r1)
              | None => None
              end
        end
      else if c <? 32 then None                  (* control character *)
      else prepend c (scanstring r)
  end.

(** *** Numbers

    [NUMBER_RE]: an integer part (an optional minus sign, then a zero or a
    non-zero digit followed by digits), an optional fraction (a dot and at
    least one digit), an optional exponent (e or E, an optional sign, at
    least one digit). *)

Definition digit_of_char (c : char) : option (Decimal.uint -> Decimal.uint) :=
  if c =? 48 then Some Decimal.D0
  else if c =? 49 then Some Decimal.D1
  else if c =? 50 then Some Decimal.D2
  else if c =? 51 then Some Decimal.D3
  else if c =? 52 then Some Decimal.D4
  else if c =? 53 then Some Decimal.D5
  else if c =? 54 then Some Decimal.D6
  else if c =? 55 then Some Decimal.D7
  else if c =? 56 then Some Decimal.D8
  else if c =? 57 then Some Decimal.D9
  else None.

(** The longest run of digits. *)
Fixpoint scan_digits (s : str) : Decimal.uint * str :=
  match s with
  | c :: r =>
      match digit_of_char c with
      | Some D => let (d, rest) := scan_digits r in (D d, rest)
      | None => (Decimal.Nil, s)
      end
  | [] => (Decimal.Nil, [])
  end.

(** The integer part. *)
Definition scan_integer (s : str) : option (Decimal.int * str) :=
  let '(negative, s1) :=
    match s with
    | c :: r => if c =? 45 then (true, r) else (false, s)
    | [] => (false, s)
    end in
  let sign := if negative then Decimal.Neg else Decimal.Pos in
  match s1 with
  | c :: r =>
      if c =? 48 then Some (sign (Decimal.D0 Decimal.Nil), r)
      else
        match digit_of_char c with
        | Some _ => let (d, rest) := scan_digits s1 in Some (sign d, rest)
        | None => None
        end
  | [] => None
  end.

(** The fraction: the text matched (empty when the group does not
    match). *)
Definition scan_frac (s : str) : str * str :=
  match s with
  | c :: r =>
      if c =? 46 then
        match scan_digits r with
        | (Decimal.Nil, _) => ([], s)
        | (d, rest) => (46 :: chars_of_uint d, rest)
        end
      else ([], s)
  | [] => ([], s)
  end.

(** The exponent, likewise. *)
Definition scan_exp (s : str) : str * str :=
  match s with
  | c :: r =>
      if (c =? 101) || (c =? 69) then
        let '(sign, r1) :=
          match r with
          | c1 :: r' => if (c1 =? 45) || (c1 =? 43) then ([c1], r') else ([], r)
          | [] => ([], r)
          end in
        match scan_digits r1 with
        | (Decimal.Nil, _) => ([], s)
        | (d, rest) => (c :: sign ++ chars_of_uint d, rest)
        end
      else ([], s)
  | [] => ([], s)
  end.

Definition chars_of_integer (i : Decimal.int) : str :=
  match i with
  | Decimal.Pos d => chars_of_uint d
  | Decimal.Neg d => 45 :: chars_of_uint d
  end.

(** [match_number] and the value built from its groups: [int(integer)], or
    [float(integer + frac + exp)] when there is a fraction or an
    exponent. *)
Definition scan_number (s : str) : option (pyval * str) :=
  match scan_integer s with
  | None => None
  | Some (integer, s1) =>
      let (frac, s2) := scan_frac s1 in
      let (exp, s3) := scan_exp s2 in
      match frac, exp with
      | [], [] => Some (PInt (Z.of_int integer), s3)
      | _, _ => Some (PFloat (FDecimal (chars_of_integer integer ++ frac ++ exp)), s3)
      end
  end.

(** *** Values *)

Definition as_dict (pairs : list (str * pyval)) : pyval :=
  PDict (List.map (fun kv => (PStr (fst kv), snd kv)) (dict_of_pairs pairs)).

(** [scan_once] with [JSONObject] and [JSONArray].  [object_pairs] is the
    loop of [JSONObject], entered after the opening quote of a key;
    [array_items] is the loop of [JSONArray], entered at a value. *)
Fixpoint scan_once (fuel : nat) (s : str) {struct fuel} : parsed pyval :=
  match fuel with
  | O => OutOfFuel
  | S fuel' =>
      match s with
      | [] => Invalid
      | c :: r =>
          if c =? 34 then
            match scanstring r with
            | Some (chars, rest) => Parsed (PStr chars) rest
            | None => Invalid
            end
          else if c =? 123 then
            match skip_ws r with
            | c1 :: r1 =>
                if c1 =? 125 then Parsed (PDict []) r1
                else if c1 =? 34 then object_pairs fuel' [] r1
                else Invalid
            | [] => Invalid
            end
          else if c =? 91 then
            match skip_ws r with
            | c1 :: r1 =>
                if c1 =? 93 then Parsed (PList []) r1
                else array_items fuel' [] (c1 :: r1)
            | [] => Invalid
            end
          else
            match strip_prefix (pystr "null") s,
                  strip_prefix (pystr "true") s,
                  strip_prefix (pystr "false") s with
            | Some rest, _, _ => Parsed PNone rest
            | _, Some rest, _ => Parsed (PBool true) rest
            | _, _, Some rest => Parsed (PBool false) rest
            | None, None, None =>
                match scan_number s with
                | Some (v, rest) => Parsed v rest
                | None =>
                    match strip_prefix (pystr "NaN") s,
                          strip_prefix (pystr "Infinity") s,
                          strip_prefix (pystr "-Infinity") s with
                    | Some rest, _, _ => Parsed (PFloat FNaN) rest
                    | _, Some rest, _ => Parsed (PFloat FInfinity) rest
                    | _, _, Some rest => Parsed (PFloat FNegInfinity) rest
                    | None, None, None => Invalid
                    end
                end
            end
      end
  end

with object_pairs (fuel : nat) (pairs : list (str * pyval)) (s : str)
       {struct fuel} : parsed pyval :=
  match fuel with
  | O => OutOfFuel
  | S fuel' =>
      match scanstring s with
      | None => Invalid
      | Some (key, s1) =>
          match skip_ws s1 with
          | c :: s2 =>
              if c =? 58 then
                match scan_once fuel' (skip_ws s2) with
                | Parsed value s3 =>
                    match skip_ws s3 with
                    | c1 :: s4 =>
                        if c1 =? 125 then
                          Parsed (as_dict (pairs ++ [(key, value)])) s4
                        else if c1 =? 44 then
                          match skip_ws s4 with
                          | c2 :: s5 =>
                              if c2 =? 34
                              then object_pairs fuel' (pairs ++ [(key, value)]) s5
                              else Invalid
                          | [] => Invalid
                          end
                        else Invalid
                    | [] => Invalid
                    end
                | Invalid => Invalid
                | OutOfFuel => OutOfFuel
                end
              else Invalid
          | [] => Invalid
          end
      end
  end

with array_items (fuel : nat) (values : list pyval) (s : str)
       {struct fuel} : parsed pyval :=
  match fuel with
  | O => OutOfFuel
  | S fuel' =>
      match scan_once fuel' s with
      | Parsed value s1 =>
          match skip_ws s1 with
          | c :: s2 =>
              if c =? 93 then Parsed (PList (values ++ [value])) s2
              else if c =? 44 then array_items fuel' (values ++ [value]) (skip_ws s2)
              else Invalid
          | [] => Invalid
          end
      | Invalid => Invalid
      | OutOfFuel => OutOfFuel
      end
  end.

(** [json.loads(s)] for a [str]: no byte-order mark, one value, nothing but
    white space after it.  The budget [2 * len(s) + 2] exceeds what
    any text needs. *)
Definition loads (s : str) : option pyval :=
  match s with
  | 0xfeff :: _ => None
  | _ =>
      match scan_once (2 * List.length s + 2) (skip_ws s) with
      | Parsed v rest =>
          match skip_ws rest with
          | [] => Some v
          | _ :: _ => None                       (* extra data *)
          end
      | Invalid => None
      | OutOfFuel => None
      end
  end.

End Json.

(** ** The [json] library: encoding

    [json.dump(stock_data, f, indent=2)] for a [dict] from [str] to [int],
    with the default [ensure_ascii=True]: every character outside the
    printable ASCII range is written as an escape. *)

Module JsonDump.
Local Open Scope N_scope.

Definition hex_digit (n : N) : char :=
  if n <? 10 then 48 + n else 87 + n.

(** ['{0:04x}'.format(n)] *)
Definition hex4 (n : N) : str :=
  [hex_digit (n / 4096 mod 16); hex_digit (n / 256 mod 16);
   hex_digit (n / 16 mod 16); hex_digit (n mod 16)].

(** What [ESCAPE_ASCII] replaces one character by. *)
Definition escape_char (c : char) : str :=
  if c =? 92 then [92; 92]
  else if c =? 34 then [92; 34]
  else if c =? 8 then [92; 98]
  else if c =? 12 then [92; 102]
  else if c =? 10 then [92; 110]
  else if c =? 13 then [92; 114]
  else if c =? 9 then [92; 116]
  else if (32 <=? c) && (c <=? 126) then [c]
  else if c <? 0x10000 then 92 :: 117 :: hex4 c
  else
    let n := c - 0x10000 in
    let s1 := N.lor 0xd800 (N.land (N.shiftr n 10) 0x3ff) in
    let s2 := N.lor 0xdc00 (N.land n 0x3ff) in
    (92 :: 117 :: hex4 s1) ++ (92 :: 117 :: hex4 s2).

(** [encode_basestring_ascii(s)] *)
Definition encode_basestring_ascii (s : str) : str :=
  34 :: List.flat_map escape_char s ++ [34].

(** One [key: value] member. *)
Definition dump_item (kv : str * Z) : str :=
  encode_basestring_ascii (fst kv) ++ [58; 32] ++ str_of_int (snd kv).

(** A line feed and one level of two blanks. *)
Definition newline_indent : str := [10; 32; 32].

(** [json.dumps(d, indent=2)] *)
Definition dumps (d : dict Z) : str :=
  match d with
  | [] => [123; 125]
  | kv :: rest =>
      123 :: newline_indent ++ dump_item kv
      ++ List.flat_map (fun kv' => 44 :: newline_indent ++ dump_item kv') rest
      ++ [10; 125]
  end.

End JsonDump.

(** ** The module [clean_inventory_system] *)

Section Inventory.
Variable B : builtins.

Local Open Scope py_scope.

(** [stock_data.get(item, 0)] on the global. *)
Definition stock_get (item : str) : M Z :=
  gets (fun w => dict_get_default (stock_data w) item 0).

(** [stock_data[item]] *)
Definition stock_item (item : str) : M Z :=
  fun w =>
    match dict_get (stock_data w) item with
    | Some n => (Ret n, w)
    | None => (Raise (KeyMissing item), w)
    end.

(** [stock_data[item] = n] *)
Definition stock_set (item : str) (n : Z) : M unit :=
  modify (fun w => with_stock (dict_set (stock_data w) item n) w).

(** [del stock_data[item]] *)
Definition stock_del (item : str) : M unit :=
  modify (fun w => with_stock (dict_del (stock_data w) item) w).

(** [add_item(item, qty, logs=None)].  The list [logs] is the caller's
    (a fresh one when the argument is left out); the value returned here
    is that list after the call, Python's own return value being
    [None]. *)
Definition add_item (item qty : pyval) (logs : option (list event))
  : M (list event) :=
  let logs := match logs with None => [] | Some l => l end in
  if negb (isinstance_str item) || negb (str_truth (str_value item)) then
    raise ItemNotNonEmptyStr
  else if negb (isinstance_int qty) then
    raise QtyNotInteger
  else if int_value qty <? 0 then
    raise QtyNegative
  else
    prev <- stock_get (str_value item) ;;
    stock_set (str_value item) (prev + int_value qty) ;;
    let entry := Added qty (str_value item) in
    let logs := logs ++ [entry] in
    logging INFO entry ;;
    ret logs.

(** [remove_item(item, qty)] *)
Definition remove_item (item qty : pyval) : M unit :=
  if negb (isinstance_str item) || negb (str_truth (str_value item)) then
    raise ItemNotNonEmptyStr
  else if negb (isinstance_int qty) then
    raise QtyNotInteger
  else if int_value qty <=? 0 then
    raise QtyNotPositive
  else
    present <- gets (fun w => dict_contains (stock_data w) (str_value item)) ;;
    if negb present then raise (ItemNotFound (str_value item))
    else
      current <- stock_item (str_value item) ;;
      if current <? int_value qty then
        raise (NotEnoughStock (str_value item) qty)
      else
        current <- stock_item (str_value item) ;;
        stock_set (str_value item) (current - int_value qty) ;;
        left <- stock_item (str_value item) ;;
        (if left =? 0 then stock_del (str_value item) else ret tt) ;;
        logging INFO (Removed qty (str_value item)).

(** [get_qty(item)] *)
Definition get_qty (item : pyval) : M Z :=
  if negb (isinstance_str item) || negb (str_truth (str_value item)) then
    raise ItemNotNonEmptyStr
  else
    stock_get (str_value item).

(** [open(file, "r", encoding="utf-8")] and [f.read()] *)
Definition read_text (file : str) : M str :=
  fun w =>
    match node (disk w) file with
    | NoFile => (Raise (OpenNotFound file), w)
    | Unopenable => (Raise (OpenFailed file), w)
    | Undecodable => (Raise (ReadUndecodable file), w)
    | Text content => (Ret content, w)
    end.

(** [json.load(f)] on the file just opened *)
Definition json_load (file : str) : M pyval :=
  text <- read_text file ;;
  match Json.loads text with
  | Some data => ret data
  | None => raise JSONInvalid
  end.

(** The body of [for k, v in data.items()], run over the items in order;
    [cleaned] is the dictionary built so far. *)
Fixpoint clean_items (items : list (pyval * pyval)) (cleaned : dict Z)
  : M (dict Z) :=
  match items with
  | [] => ret cleaned
  | (k, v) :: rest =>
      if negb (isinstance_str k) then
        logging WARNING (SkippedKey k) ;;
        clean_items rest cleaned
      else
        cleaned' <-
          try_except
            (n <- lift (PyInt.int B v) ;;
             ret (dict_set cleaned (str_value k) n))
            (fun e =>
               if catches TypeError e || catches ValueError e then
                 Some (logging WARNING (SkippedValue (str_value k) v) ;;
                       ret cleaned)
               else None) ;;
        clean_items rest cleaned'
  end.

(** [data.items()] of a value that is a [dict]. *)
Definition dict_items (data : pyval) : list (pyval * pyval) :=
  match data with PDict d => d | _ => [] end.

Definition default_file : str := pystr "inventory.json".

(** [load_data(file="inventory.json")] *)
Definition load_data (file : option str) : M unit :=
  let file := match file with None => default_file | Some f => f end in
  try_except
    (data <- json_load file ;;
     if negb (isinstance_dict data) then raise NotAJSONObject
     else
       cleaned <- clean_items (dict_items data) [] ;;
       modify (with_stock cleaned) ;;
       logging INFO (Loaded file))
    (fun e =>
       if catches FileNotFoundError e then
         Some (logging WARNING (FileMissing file) ;;
               modify (with_stock []))
       else if catches JSONDecodeError e then
         Some (logging ERROR (InvalidJSON file) ;;
               modify (with_stock []))
       else if catches Exception e then
         Some (logging ERROR (Unexpected e) ;;
               modify (with_stock []))
       else None).

(** [open(file, "w", encoding="utf-8")] and the writes of [json.dump] *)
Definition write_text (file : str) (text : str) : M unit :=
  fun w =>
    if writable (disk w) file then
      (Ret tt,
       with_disk
         (mkFilesystem
            (fun p => if str_eqb p file then Text text else node (disk w) p)
            (writable (disk w)))
         w)
    else (Raise (OpenFailed file), w).

(** [save_data(file="inventory.json")] *)
Definition save_data (file : option str) : M unit :=
  let file := match file with None => default_file | Some f => f end in
  try_except
    (d <- gets stock_data ;;
     write_text file (JsonDump.dumps d) ;;
     logging INFO (Saved file))
    (fun e =>
       if catches OSError e then
         Some (logging ERROR (SaveFailed file e) ;; raise e)
       else None).

(** The line [print(name, "->", qty)] writes. *)
Definition report_line (name : str) (qty : Z) : str :=
  name ++ pystr " -> " ++ str_of_int qty.

(** The loop of [print_data] over [stock_data.items()]. *)
Fixpoint print_items (items : list (str * Z)) : M unit :=
  match items with
  | [] => ret tt
  | (name, qty) :: rest =>
      print (report_line name qty) ;;
      print_items rest
  end.

(** [print_data()] *)
Definition print_data : M unit :=
  print (pystr "Items Report") ;;
  items <- gets stock_data ;;
  print_items items.

(** [check_low_items(threshold=5)] *)
Definition check_low_items (threshold : option pyval) : M (list str) :=
  let threshold := match threshold with None => PInt 5 | Some t => t end in
  if negb (isinstance_int threshold) || (int_value threshold <? 0) then
    raise ThresholdInvalid
  else
    d <- gets stock_data ;;
    ret (List.map fst
           (List.filter (fun kv => snd kv <? int_value threshold) d)).
End Inventory.

(** ** Vocabulary of the properties *)

(** A call fails with an error of the given kind. *)
Definition fails_with {A} (r : outcome A * world) (k : error_kind) : Prop :=
  exists e, fst r = Raise e /\ kind_of e = k.



Definition all_nonnegative (d : dict Z) : Prop :=
  Forall (fun kv => 0 <= snd kv) d.

(** A disk with no files, on which every path can be written. *)
Definition empty_disk : filesystem :=
  mkFilesystem (fun _ => NoFile) (fun _ => true).

(** The world of a freshly imported module. *)
Definition initial_world : world := mkWorld [] empty_disk [] [].

(** A world whose ledger is [d]. *)
Definition world_of (d : dict Z) : world := with_stock d initial_world.

(** A world whose disk holds one file. *)
Definition world_with_file (path : str) (content : file_node) : world :=
  with_disk
    (mkFilesystem (fun p => if str_eqb p path then content else NoFile)
                  (fun _ => true))
    initial_world.

(** An interpreter that knows no white space and no digits beyond ASCII and
    whose floats all truncate to zero: a stand-in where the parameters do
    not matter. *)
Definition ascii_builtins : builtins :=
  mkBuiltins (fun _ => false) (fun _ => None) (fun _ => Some 0).

(** A JSON text written with apostrophes where it has double quotes. *)
Definition json_text (s : string) : str :=
  List.map (fun c => if N.eqb c 39 then 34%N else c) (pystr s).

(** The text of the specification's example of a file with malformed
    entries. *)
Definition example_text : str := json_text "{'a': 1, 'b': 'x', 2: 3}".

(** The same without the member whose key is not a string. *)
Definition example_text_json : str := json_text "{'a': 1, 'b': 'x'}".




(** The path a call of [load_data] or [save_data] works on. *)
Definition path_of (file : option str) : str :=
  match file with None => default_file | Some f => f end.

(** *** Vocabulary of the round trip through JSON *)






(** The value an encoded ledger decodes to. *)
Definition as_object (d : dict Z) : pyval :=
  PDict (List.map (fun kv => (PStr (fst kv), PInt (snd kv))) d).


(** ** [repr] of a string and of a list of strings

    [print("Low items:", names)] writes [str(names)], which for a list is
    [repr]: the [repr] of each element, separated by a comma and a blank,
    in square brackets.  Which characters beyond ASCII are printable is
    the interpreter's ([str.isprintable]) and is a parameter here. *)

Module PyRepr.
Local Open Scope N_scope.

(** ['%02x'] and ['%08x'] of a code point *)
Definition hex2 (n : N) : str :=
  [JsonDump.hex_digit (n / 16 mod 16); JsonDump.hex_digit (n mod 16)].

Definition hex8 (n : N) : str :=
  JsonDump.hex4 (n / 65536) ++ JsonDump.hex4 n.

(** The quote [repr] puts around a string: an apostrophe, unless the
    string holds an apostrophe and no double quote. *)
Definition quote_of (s : str) : char :=
  if existsb (N.eqb 39) s && negb (existsb (N.eqb 34) s) then 34 else 39.

Section WithPrintable.
Variable isprintable : char -> bool.

(** What [repr] writes for one character inside the quotes. *)
Definition repr_char (quote c : char) : str :=
  if (c =? quote) || (c =? 92) then [92; c]
  else if c =? 9 then [92; 116]
  else if c =? 10 then [92; 110]
  else if c =? 13 then [92; 114]
  else if (c <? 32) || (c =? 127) then 92 :: 120 :: hex2 c
  else if c <? 127 then [c]
  else if negb (isprintable c) then
    if c <=? 255 then 92 :: 120 :: hex2 c
    else if c <=? 65535 then 92 :: 117 :: JsonDump.hex4 c
    else 92 :: 85 :: hex8 c
  else [c].

(** [repr(s)] of a [str] *)
Definition repr_str (s : str) : str :=
  let quote := quote_of s in
  quote :: List.flat_map (repr_char quote) s ++ [quote].

(** [', '.join(parts)] *)
Fixpoint join_comma (parts : list str) : str :=
  match parts with
  | [] => []
  | [p] => p
  | p :: rest => p ++ 44 :: 32 :: join_comma rest
  end.

(** [repr(l)] of a list of [str] *)
Definition repr_list (l : list str) : str :=
  91 :: join_comma (List.map repr_str l) ++ [93].
End WithPrintable.

End PyRepr.

(** ** The script [main]

    [main] calls the functions of the module and logs three messages of its
    own.  Its records are kept beside the world, each with the number of
    records the module had logged when it was written, which is its place
    among them.  As in [print_data], standard output takes every line. *)

Inductive main_event :=
| ErrorAddingBanana (e : exn)     (* "Error adding banana: %s" *)
| TypeErrorAdding (e : exn)       (* "Type error: %s" *)
| ErrorRemovingApple (e : exn).   (* "Error removing apple: %s" *)

Definition main_record : Type := nat * level * main_event.

Definition script_state : Type := world * list main_record.

Definition Script (A : Type) : Type :=
  script_state -> outcome A * script_state.

(** A call of a function of the module, for its value. *)
Definition call {A} (c : M A) : Script A :=
  fun s =>
    match c (fst s) with
    | (r, w') => (r, (w', snd s))
    end.

(** A call as a statement: the value is dropped. *)
Definition statement {A} (c : M A) : Script unit :=
  fun s =>
    match c (fst s) with
    | (Ret _, w') => (Ret tt, (w', snd s))
    | (Raise e, w') => (Raise e, (w', snd s))
    end.

Definition script_bind {A B} (c : Script A) (k : A -> Script B) : Script B :=
  fun s =>
    match c s with
    | (Ret a, s') => k a s'
    | (Raise e, s') => (Raise e, s')
    end.

(** [try: body / except Exception as exc: handler] *)
Definition try_except_Exception (body : Script unit)
    (handler : exn -> Script unit) : Script unit :=
  fun s =>
    match body s with
    | (Ret a, s') => (Ret a, s')
    | (Raise e, s') =>
        if catches Exception e then handler e s' else (Raise e, s')
    end.

(** [logging.error] of one of the script's messages. *)
Definition logging_error (ev : main_event) : Script unit :=
  fun s =>
    (Ret tt, (fst s, snd s ++ [(List.length (log (fst s)), ERROR, ev)])).

Declare Scope script_scope.
Delimit Scope script_scope with script.
Notation "x <- c ;; k" := (script_bind c (fun x => k))
  (at level 61, c at next level, right associativity) : script_scope.
Notation "c ;; k" := (script_bind c (fun _ => k))
  (at level 61, right associativity) : script_scope.

Section Script.
Variable B : builtins.
Variable isprintable : char -> bool.

Local Open Scope script_scope.

(** [main()] *)
Definition main : Script unit :=
  statement (add_item (PStr (pystr "apple")) (PInt 10) None) ;;
  try_except_Exception
    (statement (add_item (PStr (pystr "banana")) (PInt 2) None))
    (fun exc => logging_error (ErrorAddingBanana exc)) ;;
  try_except_Exception
    (statement (add_item (PStr (pystr "orange")) (PInt 10) None))
    (fun exc => logging_error (TypeErrorAdding exc)) ;;
  try_except_Exception
    (statement (remove_item (PStr (pystr "apple")) (PInt 3)))
    (fun exc => logging_error (ErrorRemovingApple exc)) ;;
  qty <- call (get_qty (PStr (pystr "apple"))) ;;
  statement (print (pystr "Apple stock: " ++ str_of_int qty)) ;;
  low <- call (check_low_items None) ;;
  statement (print (pystr "Low items: " ++ PyRepr.repr_list isprintable low)) ;;
  statement (save_data None) ;;
  statement (load_data B None) ;;
  statement print_data.

End Script.

(** ** Vocabulary of the further properties *)


(** The ledger after the three additions of [main]. *)
Definition stocked (d : dict Z) : dict Z :=
  let d1 := dict_set d (pystr "apple")
              (dict_get_default d (pystr "apple") 0 + 10) in
  let d2 := dict_set d1 (pystr "banana")
              (dict_get_default d1 (pystr "banana") 0 + 2) in
  dict_set d2 (pystr "orange") (dict_get_default d2 (pystr "orange") 0 + 10).

(** The world after the four updates of [main] and its two lines of
    output. *)
Definition updated (isprintable : char -> bool) (w : world) : world :=
  let a := dict_get_default (stock_data w) (pystr "apple") 0 + 10 in
  let log3 := ((log w ++ [(INFO, Added (PInt 10) (pystr "apple"))])
               ++ [(INFO, Added (PInt 2) (pystr "banana"))])
              ++ [(INFO, Added (PInt 10) (pystr "orange"))] in
  let d := if a <? 3 then stocked (stock_data w)
           else if a - 3 =? 0
                then dict_del (dict_set (stocked (stock_data w))
                                 (pystr "apple") (a - 3)) (pystr "apple")
                else dict_set (stocked (stock_data w)) (pystr "apple") (a - 3) in
  mkWorld d (disk w)
    (if a <? 3 then log3
     else log3 ++ [(INFO, Removed (PInt 3) (pystr "apple"))])
    ((stdout w
      ++ [pystr "Apple stock: "
          ++ str_of_int (dict_get_default d (pystr "apple") 0)])
     ++ [pystr "Low items: "
         ++ PyRepr.repr_list isprintable
              (List.map fst (List.filter (fun kv => snd kv <? 5) d))]).

(** The records [main] has logged by then. *)
Definition main_records (w : world) (l : list main_record)
  : list main_record :=
  if dict_get_default (stock_data w) (pystr "apple") 0 + 10 <? 3
  then l ++ [(List.length (log w) + 3, ERROR,
              ErrorRemovingApple
                (NotEnoughStock (pystr "apple") (PInt 3)))]%nat
  else l.



(** The log after a call is the log before it with records added at the
    end. *)
Definition log_grows (w w' : world) : Prop :=
  exists records, log w' = log w ++ records.



(** * Properties *)

(** ** Strings and dictionaries *)

Lemma str_eqb_eq (a b : str) : str_eqb a b = true <-> a = b.
Proof.
  revert b; induction a as [|x a IH]; intros [|y b]; simpl;
    try (split; [discriminate | discriminate]); try tauto.
  rewrite andb_true_iff, N.eqb_eq, IH.
  split; [intros [-> ->]; reflexivity | intros H; inversion H; auto].
Qed.

Lemma str_eqb_refl (a : str) : str_eqb a a = true.
Proof. apply str_eqb_eq; reflexivity. Qed.

Lemma str_eqb_neq (a b : str) : str_eqb a b = false <-> a <> b.
Proof.
  rewrite <- str_eqb_eq. destruct (str_eqb a b); split; congruence.
Qed.

Lemma str_eqb_sym (a b : str) : str_eqb a b = str_eqb b a.
Proof.
  destruct (str_eqb a b) eqn:E.
  - apply str_eqb_eq in E; subst; symmetry; apply str_eqb_refl.
  - apply str_eqb_neq in E. symmetry; apply str_eqb_neq; congruence.
Qed.

Section DictFacts.
Context {V : Type}.
Implicit Types (d : dict V) (k : str) (v : V).

Lemma dict_get_set_same d k v : dict_get (dict_set d k v) k = Some v.
Proof.
  induction d as [|[k' v'] d IH]; simpl.
  - now rewrite str_eqb_refl.
  - destruct (str_eqb k' k) eqn:E; simpl; rewrite E; auto.
Qed.

Lemma dict_get_set_other d k k' v :
  k <> k' -> dict_get (dict_set d k v) k' = dict_get d k'.
Proof.
  intros Hne. induction d as [|[k0 v0] d IH]; simpl.
  - apply str_eqb_neq in Hne. now rewrite Hne.
  - destruct (str_eqb k0 k) eqn:E; simpl.
    + apply str_eqb_eq in E; subst k0.
      apply str_eqb_neq in Hne. now rewrite Hne.
    + now rewrite IH.
Qed.


Lemma dict_get_some_in d k v : dict_get d k = Some v -> In (k, v) d.
Proof.
  induction d as [|[k' v'] d IH]; simpl; [discriminate|].
  destruct (str_eqb k' k) eqn:E.
  - apply str_eqb_eq in E. intros [= ->]. subst. now left.
  - intros H. right. auto.
Qed.


Lemma dict_keys_set_in d k v k' :
  In k' (dict_keys (dict_set d k v)) <-> k' = k \/ In k' (dict_keys d).
Proof.
  unfold dict_keys.
  induction d as [|[k0 v0] d IH]; simpl.
  - intuition.
  - destruct (str_eqb k0 k) eqn:E; simpl.
    + apply str_eqb_eq in E; subst. intuition.
    + rewrite IH. intuition.
Qed.

Lemma dict_wf_set d k v : dict_wf d -> dict_wf (dict_set d k v).
Proof.
  unfold dict_wf.
  induction d as [|[k0 v0] d IH]; simpl; intros Hwf.
  - constructor; [simpl; tauto | constructor].
  - inversion Hwf as [|? ? Hnin Hnd]; subst.
    destruct (str_eqb k0 k) eqn:E; simpl.
    + now constructor.
    + constructor; [|now apply IH].
      intros Hin. apply (dict_keys_set_in d k v k0) in Hin.
      apply str_eqb_neq in E. destruct Hin; [congruence | contradiction].
Qed.




Lemma dict_in_del d k kv : In kv (dict_del d k) -> In kv d.
Proof.
  induction d as [|[k0 v0] d IH]; simpl; [tauto|].
  destruct (str_eqb k0 k); simpl; intuition.
Qed.

Lemma dict_in_set d k v kv :
  In kv (dict_set d k v) -> kv = (k, v) \/ In kv d.
Proof.
  induction d as [|[k0 v0] d IH]; simpl.
  - intuition.
  - destruct (str_eqb k0 k) eqn:E; simpl.
    + apply str_eqb_eq in E; subst. intuition.
    + intuition.
Qed.

Lemma dict_contains_get d k :
  dict_contains d k = true <-> exists v, dict_get d k = Some v.
Proof.
  unfold dict_contains. destruct (dict_get d k).
  - split; eauto.
  - split; [discriminate | intros [v H]; discriminate].
Qed.
End DictFacts.

(** ** The store: [add_item], [remove_item], [get_qty], [check_low_items] *)

Lemma nonempty_truth (item : str) : item <> [] -> str_truth item = true.
Proof. destruct item; [congruence | reflexivity]. Qed.

Lemma get_qty_value (item : str) (w : world) :
  item <> [] ->
  get_qty (PStr item) w = (Ret (dict_get_default (stock_data w) item 0), w).
Proof.
  intros Hne. unfold get_qty. simpl. now rewrite (nonempty_truth _ Hne).
Qed.

Lemma add_item_ok (item : str) (qty : pyval) logs (w : world) :
  item <> [] -> isinstance_int qty = true -> 0 <= int_value qty ->
  add_item (PStr item) qty logs w =
    (Ret (match logs with None => [] | Some l => l end
          ++ [Added qty item]),
     with_log (log w ++ [(INFO, Added qty item)])
       (with_stock
          (dict_set (stock_data w) item
             (dict_get_default (stock_data w) item 0 + int_value qty)) w)).
Proof.
  intros Hne Hint Hq. unfold add_item. simpl.
  rewrite (nonempty_truth _ Hne), Hint. simpl.
  destruct (int_value qty <? 0) eqn:E; [apply Z.ltb_lt in E; lia|].
  reflexivity.
Qed.



Lemma remove_item_ok (item : str) (qty : pyval) (w : world) (q : Z) :
  item <> [] -> isinstance_int qty = true -> 0 < int_value qty ->
  dict_get (stock_data w) item = Some q -> int_value qty <= q ->
  remove_item (PStr item) qty w =
    (Ret tt,
     with_log (log w ++ [(INFO, Removed qty item)])
       (with_stock
          (if q - int_value qty =? 0
           then dict_del (dict_set (stock_data w) item (q - int_value qty)) item
           else dict_set (stock_data w) item (q - int_value qty)) w)).
Proof.
  intros Hne Hint Hpos Hget Hle. unfold remove_item. simpl.
  rewrite (nonempty_truth _ Hne), Hint. simpl.
  destruct (int_value qty <=? 0) eqn:E; [apply Z.leb_le in E; lia|].
  assert (E2 : (q <? int_value qty) = false) by (apply Z.ltb_ge; lia).
  unfold bind, gets, stock_item, dict_contains. simpl.
  repeat (first [rewrite Hget | rewrite E2 | rewrite dict_get_set_same]; simpl).
  destruct (q - int_value qty =? 0); reflexivity.
Qed.

Lemma print_items_lines (items : list (str * Z)) (w : world) :
  print_items items w =
    (Ret tt,
     with_stdout
       (stdout w ++ List.map (fun kv => report_line (fst kv) (snd kv)) items) w).
Proof.
  revert w. induction items as [|[name qty] items IH]; intros w; simpl.
  - unfold ret, with_stdout. rewrite app_nil_r. now destruct w.
  - unfold bind, print, modify. rewrite IH. simpl.
    unfold with_stdout. simpl. now rewrite <- app_assoc.
Qed.

(** What [print_data] writes: the header and one line per entry of the
    ledger, in the ledger's order. *)
Lemma print_data_lines (w : world) :
  print_data w =
    (Ret tt,
     with_stdout
       (stdout w ++ pystr "Items Report"
          :: List.map (fun kv => report_line (fst kv) (snd kv)) (stock_data w))
       w).
Proof.
  unfold print_data, bind, print, modify, gets. simpl.
  rewrite print_items_lines. simpl. unfold with_stdout. simpl.
  now rewrite <- app_assoc.
Qed.

Lemma check_low_items_value (t : pyval) (w : world) :
  isinstance_int t = true -> 0 <= int_value t ->
  check_low_items (Some t) w =
    (Ret (List.map fst
            (List.filter (fun kv => snd kv <? int_value t) (stock_data w))),
     w).
Proof.
  intros Hint Hnn. unfold check_low_items. rewrite Hint. simpl.
  destruct (int_value t <? 0) eqn:E; [apply Z.ltb_lt in E; lia|].
  reflexivity.
Qed.




(** The four ways a call of [remove_item] with a name and a number ends. *)
Lemma remove_item_cases (item : str) (qty : Z) (w : world) :
  let r := remove_item (PStr item) (PInt qty) w in
  (item = [] /\ r = (Raise ItemNotNonEmptyStr, w)) \/
  (item <> [] /\ qty <= 0 /\ r = (Raise QtyNotPositive, w)) \/
  (item <> [] /\ 0 < qty /\ dict_get (stock_data w) item = None /\
     r = (Raise (ItemNotFound item), w)) \/
  (item <> [] /\ 0 < qty /\
     (exists q, dict_get (stock_data w) item = Some q /\ q < qty) /\
     r = (Raise (NotEnoughStock item (PInt qty)), w)) \/
  (item <> [] /\ 0 < qty /\
     (exists q, dict_get (stock_data w) item = Some q /\ qty <= q) /\
     exists w', r = (Ret tt, w')).
Proof.
  intros r. subst r.
  destruct item as [|c item]; [left; split; reflexivity|].
  right. assert (Hne : c :: item <> []) by discriminate.
  destruct (Z_le_gt_dec qty 0) as [Hq|Hq].
  { left. repeat split; auto. unfold remove_item. simpl.
    apply Z.leb_le in Hq. now rewrite Hq. }
  right. assert (Hpos : 0 < qty) by lia.
  destruct (dict_get (stock_data w) (c :: item)) as [q|] eqn:Hget.
  - right. destruct (Z_lt_le_dec q qty) as [Hlt|Hle].
    + left. repeat split; eauto. unfold remove_item. simpl.
      assert (E : (qty <=? 0) = false) by (apply Z.leb_gt; lia).
      assert (E2 : (q <? qty) = true) by (apply Z.ltb_lt; lia).
      rewrite E. unfold bind, gets, stock_item, dict_contains. simpl.
      repeat (first [rewrite Hget | rewrite E2]; simpl). reflexivity.
    + right. repeat split; eauto. eexists.
      now apply (remove_item_ok (c :: item) (PInt qty) w q).
  - left. repeat split; auto. unfold remove_item. simpl.
    assert (E : (qty <=? 0) = false) by (apply Z.leb_gt; lia).
    rewrite E. unfold bind, gets, dict_contains. simpl. now rewrite Hget.
Qed.







(** C5. A malformed input to [add_item], [remove_item], [get_qty] or
    [check_low_items] (an empty item name, a negative quantity to add, a
    quantity to remove that is not positive, a negative threshold) makes
    the call raise an InvalidArgument error. *)
Theorem malformed_input_is_invalid_argument
    (item qty : pyval) (n m t : Z) (logs : option (list event)) (w : world) :
  n < 0 -> m <= 0 -> t < 0 ->
  fails_with (add_item (PStr []) qty logs w) InvalidArgument /\
  fails_with (add_item item (PInt n) logs w) InvalidArgument /\
  fails_with (remove_item (PStr []) qty w) InvalidArgument /\
  fails_with (remove_item item (PInt m) w) InvalidArgument /\
  fails_with (get_qty (PStr []) w) InvalidArgument /\
  fails_with (check_low_items (Some (PInt t)) w) InvalidArgument.
Proof.
  intros Hn Hm Ht.
  apply Z.ltb_lt in Hn. apply Z.leb_le in Hm. apply Z.ltb_lt in Ht.
  repeat split.
  - eexists; split; reflexivity.
  - unfold add_item.
    destruct (negb (isinstance_str item) || negb (str_truth (str_value item)));
      [eexists; split; reflexivity|].
    simpl. rewrite Hn. eexists; split; reflexivity.
  - eexists; split; reflexivity.
  - unfold remove_item.
    destruct (negb (isinstance_str item) || negb (str_truth (str_value item)));
      [eexists; split; reflexivity|].
    simpl. rewrite Hm. eexists; split; reflexivity.
  - eexists; split; reflexivity.
  - unfold check_low_items. simpl. rewrite Ht. eexists; split; reflexivity.
Qed.

Lemma malformed_input_is_invalid_argument_witness :
  fails_with (add_item (PStr []) (PInt 3) None initial_world) InvalidArgument /\
  fails_with (add_item (PStr (pystr "apple")) (PInt (-1)) None initial_world)
    InvalidArgument /\
  fails_with (remove_item (PStr []) (PInt 3) initial_world) InvalidArgument /\
  fails_with (remove_item (PStr (pystr "apple")) (PInt 0) initial_world)
    InvalidArgument /\
  fails_with (get_qty (PStr []) initial_world) InvalidArgument /\
  fails_with (check_low_items (Some (PInt (-2))) initial_world) InvalidArgument.
Proof.
  apply (malformed_input_is_invalid_argument
           (PStr (pystr "apple")) (PInt 3) (-1) 0 (-2) None initial_world); lia.
Defined.

(** C9. For a threshold that is not negative, [check_low_items] returns
    the names of the entries whose quantity is strictly below it, and no
    others, in the ledger's order; left out, the threshold is 5, so on the
    ledger apple: 3, banana: 10 the result is the one name apple. *)
Theorem check_low_items_lists_low_stock (t : Z) (w : world) :
  0 <= t ->
  exists names,
    check_low_items (Some (PInt t)) w = (Ret names, w) /\
    names = List.map fst (List.filter (fun kv => snd kv <? t) (stock_data w)) /\
    (forall name,
       In name names <-> exists q, In (name, q) (stock_data w) /\ q < t) /\
    check_low_items None w = check_low_items (Some (PInt 5)) w /\
    check_low_items None
      (world_of [(pystr "apple", 3); (pystr "banana", 10)])
      = (Ret [pystr "apple"],
         world_of [(pystr "apple", 3); (pystr "banana", 10)]).
Proof.
  intros Ht. eexists. split; [now apply check_low_items_value|].
  split; [reflexivity|]. split; [|split; reflexivity].
  intros name. simpl. rewrite in_map_iff. split.
  - intros [[k q] [Hk Hin]]. simpl in Hk; subst.
    apply filter_In in Hin. destruct Hin as [Hin Hlt]. simpl in Hlt.
    apply Z.ltb_lt in Hlt. eauto.
  - intros [q [Hin Hlt]]. exists (name, q). split; [reflexivity|].
    apply filter_In. split; [assumption|]. now apply Z.ltb_lt.
Qed.

Lemma check_low_items_lists_low_stock_witness :
  exists names,
    check_low_items (Some (PInt 5))
      (world_of [(pystr "apple", 3); (pystr "banana", 10)])
      = (Ret names, world_of [(pystr "apple", 3); (pystr "banana", 10)]) /\
    names = List.map fst
              (List.filter (fun kv => snd kv <? 5)
                 (stock_data (world_of [(pystr "apple", 3); (pystr "banana", 10)]))) /\
    (forall name,
       In name names <->
       exists q,
         In (name, q)
            (stock_data (world_of [(pystr "apple", 3); (pystr "banana", 10)]))
         /\ q < 5) /\
    check_low_items None (world_of [(pystr "apple", 3); (pystr "banana", 10)])
      = check_low_items (Some (PInt 5))
          (world_of [(pystr "apple", 3); (pystr "banana", 10)]) /\
    check_low_items None
      (world_of [(pystr "apple", 3); (pystr "banana", 10)])
      = (Ret [pystr "apple"],
         world_of [(pystr "apple", 3); (pystr "banana", 10)]).
Proof.
  apply (check_low_items_lists_low_stock 5
           (world_of [(pystr "apple", 3); (pystr "banana", 10)])).
  lia.
Defined.

(** Every call of [remove_item], whatever its arguments, either raises in
    the world it was called in or returns. *)
Lemma remove_item_raises_unchanged (item qty : pyval) (w : world) :
  (exists e, remove_item item qty w = (Raise e, w)) \/
  (exists w', remove_item item qty w = (Ret tt, w')).
Proof.
  unfold remove_item.
  destruct (negb (isinstance_str item) || negb (str_truth (str_value item)))
    eqn:Ei; [left; eexists; reflexivity|].
  destruct (negb (isinstance_int qty)) eqn:Eq; [left; eexists; reflexivity|].
  destruct (int_value qty <=? 0) eqn:Es; [left; eexists; reflexivity|].
  unfold bind, gets, stock_item, dict_contains. simpl.
  destruct (dict_get (stock_data w) (str_value item)) as [q|] eqn:Hget; simpl;
    [|left; eexists; reflexivity].
  rewrite Hget.
  destruct (q <? int_value qty) eqn:El; [left; eexists; reflexivity|].
  right. cbv beta. rewrite Hget. simpl. rewrite dict_get_set_same.
  destruct (q - int_value qty =? 0); eexists; reflexivity.
Qed.



(** ** The sign of the stored quantities *)









(** ** Loading *)

Lemma catches_Exception (e : exn) : catches Exception e = true.
Proof. destruct e; reflexivity. Qed.

(** The cleaning loop only ever adds log records, and builds a dictionary
    whose keys are distinct. *)
Lemma clean_items_effect (B : builtins) (items : list (pyval * pyval)) :
  forall (cleaned : dict Z) (w : world),
    dict_wf cleaned ->
    exists r w',
      clean_items B items cleaned w = (r, w') /\
      stock_data w' = stock_data w /\ disk w' = disk w /\
      stdout w' = stdout w /\
      match r with
      | Ret cleaned' => dict_wf cleaned'
      | Raise e => e = IntOverflowError
      end.
Proof.
  induction items as [|[k v] items IH]; intros cleaned w Hwf; simpl.
  - eexists _, _. split; [reflexivity|]. auto.
  - destruct (negb (isinstance_str k)).
    + unfold bind, logging, modify. simpl.
      destruct (IH cleaned (with_log (log w ++ [(WARNING, SkippedKey k)]) w) Hwf)
        as (r & w' & Hrun & Hs & Hd & Ho & Hr).
      rewrite Hrun. destruct r; eexists _, _; (split; [reflexivity|]); auto.
    + unfold bind at 1. unfold try_except, bind, lift.
      destruct (PyInt.int B v) as [n|e] eqn:Hint; simpl.
      * destruct (IH (dict_set cleaned (str_value k) n) w
                    (dict_wf_set _ _ _ Hwf))
          as (r & w' & Hrun & Hs & Hd & Ho & Hr).
        rewrite Hrun. destruct r; eexists _, _; (split; [reflexivity|]); auto.
      * destruct (catches TypeError e || catches ValueError e) eqn:Hc.
        -- unfold logging, modify, ret. simpl.
           destruct (IH cleaned
                       (with_log (log w ++ [(WARNING, SkippedValue (str_value k) v)]) w)
                       Hwf)
             as (r & w' & Hrun & Hs & Hd & Ho & Hr).
           rewrite Hrun.
           destruct r; eexists _, _; (split; [reflexivity|]); auto.
        -- eexists _, _. split; [reflexivity|]. repeat split.
           destruct v as [| | |f| | |]; simpl in Hint;
             try (inversion Hint; subst; discriminate).
           ++ destruct f; simpl in Hint;
                try (inversion Hint; subst; try discriminate; reflexivity).
              destruct (float_trunc B literal); inversion Hint; reflexivity.
           ++ destruct (PyInt.int_of_str B s); inversion Hint; subst;
                discriminate.
Qed.

(** [load_data] on a path with no file. *)
Lemma load_data_missing (B : builtins) (file : str) (w : world) :
  node (disk w) file = NoFile ->
  load_data B (Some file) w =
    (Ret tt, with_stock [] (with_log (log w ++ [(WARNING, FileMissing file)]) w)).
Proof.
  intros Hn. unfold load_data, try_except, bind, json_load, bind, read_text.
  rewrite Hn. reflexivity.
Qed.

(** [load_data] on a file whose text is not JSON. *)
Lemma load_data_invalid (B : builtins) (file text : str) (w : world) :
  node (disk w) file = Text text -> Json.loads text = None ->
  load_data B (Some file) w =
    (Ret tt, with_stock [] (with_log (log w ++ [(ERROR, InvalidJSON file)]) w)).
Proof.
  intros Hn Hl. unfold load_data, try_except, bind, json_load, bind, read_text.
  rewrite Hn, Hl. reflexivity.
Qed.

(** [load_data] on a JSON file whose value is not an object. *)
Lemma load_data_not_object (B : builtins) (file text : str) (data : pyval)
    (w : world) :
  node (disk w) file = Text text -> Json.loads text = Some data ->
  isinstance_dict data = false ->
  load_data B (Some file) w =
    (Ret tt,
     with_stock [] (with_log (log w ++ [(ERROR, Unexpected NotAJSONObject)]) w)).
Proof.
  intros Hn Hl Hd.
  unfold load_data, try_except, bind, json_load, bind, read_text.
  rewrite Hn, Hl. unfold ret. rewrite Hd. reflexivity.
Qed.

(** [load_data] on a JSON file whose value is an object: the ledger becomes
    what the cleaning loop builds, unless that loop raises. *)
Lemma load_data_object (B : builtins) (file text : str)
    (items : list (pyval * pyval)) (w : world) :
  node (disk w) file = Text text -> Json.loads text = Some (PDict items) ->
  load_data B (Some file) w =
    match clean_items B items [] w with
    | (Ret cleaned, w') =>
        (Ret tt, with_log (log w' ++ [(INFO, Loaded file)]) (with_stock cleaned w'))
    | (Raise e, w') =>
        (Ret tt, with_stock [] (with_log (log w' ++ [(ERROR, Unexpected e)]) w'))
    end.
Proof.
  intros Hn Hl.
  unfold load_data, try_except, bind, json_load, bind, read_text.
  rewrite Hn, Hl. unfold ret. simpl.
  destruct (clean_items_effect B items [] w (NoDup_nil _))
    as (r & w' & Hrun & _ & _ & _ & Hr).
  rewrite Hrun. destruct r as [cleaned|e]; [reflexivity|].
  subst e. reflexivity.
Qed.

(** Closes the description of the world [load_data] leaves, once that
    world is known. *)
Ltac settle_load :=
  simpl;
  split; [first [assumption | apply NoDup_nil]|];
  split; [first [assumption | reflexivity]|];
  (split; [|split]); intros;
  try discriminate; try congruence; try (split; reflexivity).

(** C7. [load_data] never raises: it returns in every world, for every
    path, leaving a ledger that is a well-formed dictionary and a disk that
    is untouched.  When there is no file at the path, or its text is not
    JSON, or the JSON value is not an object, the ledger it leaves is
    empty and one record was logged, a warning in the first case and an
    error in the other two. *)
Theorem load_data_never_raises
    (B : builtins) (file : option str) (w : world) :
  exists w',
    load_data B file w = (Ret tt, w') /\
    dict_wf (stock_data w') /\
    disk w' = disk w /\
    (node (disk w) (path_of file) = NoFile ->
       stock_data w' = [] /\
       log w' = log w ++ [(WARNING, FileMissing (path_of file))]) /\
    (forall text,
       node (disk w) (path_of file) = Text text -> Json.loads text = None ->
       stock_data w' = [] /\
       log w' = log w ++ [(ERROR, InvalidJSON (path_of file))]) /\
    (forall text data,
       node (disk w) (path_of file) = Text text ->
       Json.loads text = Some data ->
       isinstance_dict data = false ->
       stock_data w' = [] /\
       log w' = log w ++ [(ERROR, Unexpected NotAJSONObject)]).
Proof.
  remember (path_of file) as path eqn:Hpath.
  assert (Hsame : load_data B file w = load_data B (Some path) w)
    by (subst path; destruct file; reflexivity).
  rewrite Hsame. clear Hsame Hpath.
  destruct (node (disk w) path) as [| | |text] eqn:Hn.
  - rewrite (load_data_missing B path w Hn). eexists.
    split; [reflexivity|]. settle_load.
  - eexists. split.
    { unfold load_data, try_except, bind, json_load, bind, read_text.
      rewrite Hn. reflexivity. }
    settle_load.
  - eexists. split.
    { unfold load_data, try_except, bind, json_load, bind, read_text.
      rewrite Hn. reflexivity. }
    settle_load.
  - destruct (Json.loads text) as [data|] eqn:Hl.
    + destruct (isinstance_dict data) eqn:Hd.
      * destruct data; try discriminate.
        rewrite (load_data_object B path text d w Hn Hl).
        destruct (clean_items_effect B d [] w (NoDup_nil _))
          as (r & w' & Hrun & Hs & Hdk & _ & Hr).
        rewrite Hrun.
        destruct r as [cleaned|e]; eexists; (split; [reflexivity|]);
          settle_load.
      * rewrite (load_data_not_object B path text data w Hn Hl Hd).
        eexists. split; [reflexivity|]. settle_load.
    + rewrite (load_data_invalid B path text w Hn Hl).
      eexists. split; [reflexivity|]. settle_load.
Qed.

(** The example text of the specification is not JSON: the decoder stops
    at the member whose key is the bare number 2. *)
Lemma example_text_is_not_json : Json.loads example_text = None.
Proof. vm_compute. reflexivity. Qed.

(** The decoder rejects it as a text, not for lack of budget. *)
Lemma example_text_scan_is_invalid :
  Json.scan_once (2 * List.length example_text + 2)
                 (Json.skip_ws example_text) = Json.Invalid.
Proof. vm_compute. reflexivity. Qed.

(** C8, as stated, fails: loading a file that holds the example text
    leaves the empty ledger, not the ledger with the one entry a: 1. *)
Lemma load_data_example_text_gives_empty_ledger :
  load_data ascii_builtins (Some (pystr "stock.json"))
    (world_with_file (pystr "stock.json") (Text example_text))
  = (Ret tt,
     with_stock []
       (with_log [(ERROR, InvalidJSON (pystr "stock.json"))]
          (world_with_file (pystr "stock.json") (Text example_text)))) /\
  stock_data
    (with_stock []
       (with_log [(ERROR, InvalidJSON (pystr "stock.json"))]
          (world_with_file (pystr "stock.json") (Text example_text))))
  <> [(pystr "a", 1)].
Proof.
  split; [|discriminate].
  apply (load_data_invalid ascii_builtins (pystr "stock.json") example_text).
  - reflexivity.
  - apply example_text_is_not_json.
Qed.

(** C8, amended.  A file that holds the example text is not a JSON file,
    and loading it leaves the empty ledger.  Loading the JSON file with
    the members a: 1 and b: x leaves the ledger with the one entry a: 1,
    the member whose value is no numeral being skipped; and the cleaning
    loop, handed the three pairs a: 1, b: x and 2: 3 as items, skips the
    pair whose key is not a string as well and keeps a: 1 alone. *)
Theorem load_data_skips_malformed_entries
    (B : builtins) (file : str) (w : world) :
  (node (disk w) file = Text example_text ->
   exists w', load_data B (Some file) w = (Ret tt, w') /\
              stock_data w' = []) /\
  (node (disk w) file = Text example_text_json ->
   exists w', load_data B (Some file) w = (Ret tt, w') /\
              stock_data w' = [(pystr "a", 1)]) /\
  fst (clean_items B
         [(PStr (pystr "a"), PInt 1);
          (PStr (pystr "b"), PStr (pystr "x"));
          (PInt 2, PInt 3)] [] w)
    = Ret [(pystr "a", 1)].
Proof.
  split; [|split].
  - intros Hn. eexists. split.
    + apply (load_data_invalid B file example_text w Hn).
      apply example_text_is_not_json.
    + reflexivity.
  - intros Hn. eexists. split.
    + rewrite (load_data_object B file example_text_json
                 [(PStr (pystr "a"), PInt 1);
                  (PStr (pystr "b"), PStr (pystr "x"))] w Hn);
        [|vm_compute; reflexivity].
      reflexivity.
    + reflexivity.
  - reflexivity.
Qed.

Lemma load_data_skips_malformed_entries_witness :
  (exists w',
     load_data ascii_builtins (Some (pystr "stock.json"))
       (world_with_file (pystr "stock.json") (Text example_text_json))
     = (Ret tt, w') /\
     stock_data w' = [(pystr "a", 1)]).
Proof.
  apply (load_data_skips_malformed_entries ascii_builtins (pystr "stock.json")
           (world_with_file (pystr "stock.json") (Text example_text_json))).
  reflexivity.
Defined.

(** ** The decoder: every scan consumes text, and the budget suffices *)

Module JsonFacts.
Import Json.
Local Open Scope nat_scope.

(** Case analysis on the first test or match of a hypothesis. *)
Ltac break_in H :=
  match type of H with
  | context [match ?x with _ => _ end] =>
      let E := fresh "E" in destruct x eqn:E; try discriminate H
  end.

Lemma skip_ws_le (s : str) : List.length (skip_ws s) <= List.length s.
Proof.
  induction s as [|c s IH]; simpl; [lia|].
  destruct (is_ws c); simpl; lia.
Qed.

Lemma skip_ws_cons_lt (s : str) (c : char) (r : str) :
  skip_ws s = c :: r -> List.length r < List.length s.
Proof.
  intros H. pose proof (skip_ws_le s) as Hle. rewrite H in Hle.
  simpl in Hle. lia.
Qed.

Lemma prepend_some (c : char) (r : option (str * str)) (chars rest : str) :
  prepend c r = Some (chars, rest) ->
  exists chars', r = Some (chars', rest) /\ chars = c :: chars'.
Proof.
  destruct r as [[chars' rest']|]; simpl; [|discriminate].
  intros H. inversion H; subst. eauto.
Qed.

Lemma scanstring_lt_bounded (n : nat) :
  forall (s chars rest : str),
    List.length s <= n -> scanstring s = Some (chars, rest) ->
    List.length rest < List.length s.
Proof.
  induction n as [|n IH]; intros s chars rest Hlen H.
  - destruct s; [discriminate | simpl in Hlen; lia].
  - destruct s as [|c r]; [discriminate|].
    simpl in Hlen. simpl in H.
    repeat break_in H;
      try (inversion H; subst; simpl; lia);
      try (apply prepend_some in H; destruct H as [chars' [H _]];
           apply IH in H; simpl in *; lia).
Qed.

Lemma scanstring_lt (s chars rest : str) :
  scanstring s = Some (chars, rest) -> List.length rest < List.length s.
Proof. apply (scanstring_lt_bounded (List.length s)); lia. Qed.

Lemma strip_prefix_length (p s rest : str) :
  strip_prefix p s = Some rest ->
  List.length s = List.length p + List.length rest.
Proof.
  revert s. induction p as [|a p IH]; intros s H; simpl in H.
  - inversion H; subst. reflexivity.
  - destruct s as [|c s]; [discriminate|].
    destruct (N.eqb a c); [|discriminate].
    apply IH in H. simpl. lia.
Qed.

Lemma strip_prefix_lt (p s rest : str) :
  p <> [] -> strip_prefix p s = Some rest ->
  List.length rest < List.length s.
Proof.
  intros Hp H. apply strip_prefix_length in H.
  destruct p; [congruence | simpl in H; lia].
Qed.

Lemma scan_digits_le (s : str) :
  List.length (snd (scan_digits s)) <= List.length s.
Proof.
  induction s as [|c s IH]; simpl; [lia|].
  destruct (digit_of_char c); simpl; [|lia].
  destruct (scan_digits s); simpl in *. lia.
Qed.

Lemma scan_integer_lt (s : str) (i : Decimal.int) (rest : str) :
  scan_integer s = Some (i, rest) -> List.length rest < List.length s.
Proof.
  unfold scan_integer. intros H.
  destruct s as [|c r]; [discriminate|].
  destruct (N.eqb c 45).
  - destruct r as [|c1 r1]; [discriminate|].
    destruct (N.eqb c1 48).
    + inversion H; subst. simpl. lia.
    + destruct (digit_of_char c1); [|discriminate].
      pose proof (scan_digits_le (c1 :: r1)) as Hle.
      destruct (scan_digits (c1 :: r1)) eqn:E.
      inversion H; subst. simpl in *.
      (* at least the first digit was consumed *)
      destruct (digit_of_char c1) eqn:Ed in E.
      * destruct (scan_digits r1) eqn:E1. inversion E; subst.
        pose proof (scan_digits_le r1) as Hle1. rewrite E1 in Hle1.
        simpl in Hle1. lia.
      * inversion E; subst. lia.
  - destruct (N.eqb c 48).
    + inversion H; subst. simpl. lia.
    + destruct (digit_of_char c) eqn:Ed; [|discriminate].
      destruct (scan_digits (c :: r)) eqn:E.
      inversion H; subst. simpl in E. rewrite Ed in E.
      destruct (scan_digits r) eqn:E1. inversion E; subst.
      pose proof (scan_digits_le r) as Hle1. rewrite E1 in Hle1.
      simpl in *. lia.
Qed.

Lemma scan_frac_le (s : str) :
  List.length (snd (scan_frac s)) <= List.length s.
Proof.
  unfold scan_frac. destruct s as [|c r]; simpl; [lia|].
  destruct (N.eqb c 46); simpl; [|lia].
  pose proof (scan_digits_le r) as Hle.
  destruct (scan_digits r) as [d rest]. simpl in Hle.
  destruct d; simpl; lia.
Qed.

Lemma scan_exp_le (s : str) :
  List.length (snd (scan_exp s)) <= List.length s.
Proof.
  unfold scan_exp. destruct s as [|c r]; simpl; [lia|].
  destruct (N.eqb c 101 || N.eqb c 69); simpl; [|lia].
  destruct r as [|c1 r'].
  - simpl. lia.
  - destruct (N.eqb c1 45 || N.eqb c1 43).
    + pose proof (scan_digits_le r') as Hle.
      destruct (scan_digits r') as [d rest]. simpl in Hle.
      destruct d; simpl; lia.
    + pose proof (scan_digits_le (c1 :: r')) as Hle.
      destruct (scan_digits (c1 :: r')) as [d rest]. simpl in Hle.
      destruct d; simpl; lia.
Qed.

Lemma scan_number_lt (s : str) (v : pyval) (rest : str) :
  scan_number s = Some (v, rest) -> List.length rest < List.length s.
Proof.
  unfold scan_number. intros H.
  destruct (scan_integer s) as [[i s1]|] eqn:Ei; [|discriminate].
  apply scan_integer_lt in Ei.
  pose proof (scan_frac_le s1) as Hf.
  destruct (scan_frac s1) as [frac s2]. simpl in Hf.
  pose proof (scan_exp_le s2) as He.
  destruct (scan_exp s2) as [exp s3]. simpl in He.
  destruct frac, exp; inversion H; subst; lia.
Qed.

#[local] Arguments scan_number : simpl never.
#[local] Arguments scanstring : simpl never.
#[local] Arguments strip_prefix : simpl never.
#[local] Arguments skip_ws : simpl never.
#[local] Arguments pystr : simpl never.

Lemma skip_ws_le_known (s : str) :
  List.length (skip_ws s) <= List.length s.
Proof. apply skip_ws_le. Qed.

(** Turns what is known of the scans made into facts about lengths. *)
Ltac length_facts :=
  repeat match goal with
    | H : scanstring _ = Some _ |- _ => apply scanstring_lt in H
    | H : skip_ws _ = _ :: _ |- _ => apply skip_ws_cons_lt in H
    | H : scan_number _ = Some _ |- _ => apply scan_number_lt in H
    | H : strip_prefix _ _ = Some _ |- _ =>
        apply strip_prefix_lt in H; [|vm_compute; discriminate]
    end;
  repeat match goal with
    | H : context [List.length (skip_ws ?x)] |- _ =>
        lazymatch goal with
        | _ : List.length (skip_ws x) <= List.length x |- _ => fail
        | _ => pose proof (skip_ws_le_known x)
        end
    end.

(** A successful scan leaves strictly less text than it was given. *)
Lemma scan_consumes (fuel : nat) :
  (forall s v rest,
     scan_once fuel s = Parsed v rest -> List.length rest < List.length s) /\
  (forall pairs s v rest,
     object_pairs fuel pairs s = Parsed v rest ->
     List.length rest < List.length s) /\
  (forall values s v rest,
     array_items fuel values s = Parsed v rest ->
     List.length rest < List.length s).
Proof.
  induction fuel as [|fuel (IHv & IHo & IHa)];
    [repeat split; intros; discriminate|].
  repeat split.
  - intros s v rest H. destruct s as [|c r]; [discriminate|].
    simpl in H.
    repeat break_in H;
      try (apply IHo in H); try (apply IHa in H);
      try (inversion H; subst); length_facts; simpl in *; lia.
  - intros pairs s v rest H. simpl in H.
    repeat break_in H;
      try (apply IHo in H);
      try (inversion H; subst);
      repeat match goal with
        | E : scan_once fuel _ = Parsed _ _ |- _ => apply IHv in E
        end;
      length_facts; simpl in *; lia.
  - intros values s v rest H. simpl in H.
    repeat break_in H;
      try (apply IHa in H);
      try (inversion H; subst);
      repeat match goal with
        | E : scan_once fuel _ = Parsed _ _ |- _ => apply IHv in E
        end;
      length_facts; simpl in *; lia.
Qed.

Ltac budget_side :=
  try match goal with
    | |- context [skip_ws ?x] => pose proof (skip_ws_le_known x)
    end;
  simpl in *; lia.

(** With a budget above twice the length of the text, no scan runs out. *)
Lemma scan_budget (fuel : nat) :
  (forall s, 2 * List.length s < fuel -> scan_once fuel s <> OutOfFuel) /\
  (forall pairs s,
     2 * List.length s + 1 < fuel -> object_pairs fuel pairs s <> OutOfFuel) /\
  (forall values s,
     2 * List.length s + 1 < fuel -> array_items fuel values s <> OutOfFuel).
Proof.
  induction fuel as [|fuel (IHv & IHo & IHa)];
    [repeat split; intros; lia|].
  repeat split.
  - intros s Hlen H. destruct s as [|c r]; [discriminate|].
    simpl in H, Hlen.
    repeat break_in H;
      length_facts; simpl in *;
      first [ apply IHo in H; [assumption | budget_side]
            | apply IHa in H; [assumption | budget_side] ].
  - intros pairs s Hlen H. simpl in H.
    repeat break_in H;
      repeat match goal with
        | E : scan_once fuel _ = Parsed _ _ |- _ =>
            apply (proj1 (scan_consumes fuel)) in E
        end;
      length_facts; simpl in *;
      first [ apply IHo in H; [assumption | budget_side]
            | match goal with
              | E : scan_once fuel ?x = OutOfFuel |- _ =>
                  apply IHv in E; [assumption | budget_side]
              end ].
  - intros values s Hlen H. simpl in H.
    repeat break_in H;
      repeat match goal with
        | E : scan_once fuel _ = Parsed _ _ |- _ =>
            apply (proj1 (scan_consumes fuel)) in E
        end;
      length_facts; simpl in *;
      first [ apply IHa in H; [assumption | budget_side]
            | match goal with
              | E : scan_once fuel ?x = OutOfFuel |- _ =>
                  apply IHv in E; [assumption | budget_side]
              end ].
Qed.

(** [loads] never gives up for lack of budget: when it answers [None] the
    text is not JSON. *)
Theorem loads_budget_suffices (s : str) :
  scan_once (2 * List.length s + 2) (skip_ws s) <> OutOfFuel.
Proof.
  apply (proj1 (scan_budget _)). pose proof (skip_ws_le s). lia.
Qed.



End JsonFacts.

(** ** Decoding what the encoder wrote *)

Module JsonRoundTrip.
Import Json JsonDump.

(** *** Strings *)

Section Strings.
Local Open Scope N_scope.









#[local] Arguments decode_uXXXX : simpl never.
#[local] Arguments hex_digit : simpl never.
#[local] Arguments is_high_surrogate : simpl never.
#[local] Arguments is_low_surrogate : simpl never.
#[local] Arguments join_surrogates : simpl never.
#[local] Arguments N.div : simpl never.
#[local] Arguments N.modulo : simpl never.
#[local] Arguments N.add : simpl never.



End Strings.

(** *** Numerals *)







#[local] Arguments scan_number : simpl never.
#[local] Arguments scanstring : simpl never.



#[local] Arguments scan_once : simpl never.
#[local] Arguments object_pairs : simpl never.

(** *** Objects *)

Local Open Scope nat_scope.
















End JsonRoundTrip.

(** ** Saving, then loading *)


(** [save_data] on a path that can be written. *)
Lemma save_data_writable (file : option str) (w : world) :
  writable (disk w) (path_of file) = true ->
  save_data file w =
    (Ret tt,
     with_log (log w ++ [(INFO, Saved (path_of file))])
       (with_disk
          (mkFilesystem
             (fun p => if str_eqb p (path_of file)
                       then Text (JsonDump.dumps (stock_data w))
                       else node (disk w) p)
             (writable (disk w)))
          w)).
Proof.
  intros Hw. unfold save_data, try_except, bind, gets, write_text.
  fold (path_of file). simpl. rewrite Hw. reflexivity.
Qed.

(** [save_data] on a path that cannot: the error is logged and raised
    again. *)
Lemma save_data_unwritable (file : option str) (w : world) :
  writable (disk w) (path_of file) = false ->
  save_data file w =
    (Raise (OpenFailed (path_of file)),
     with_log
       (log w ++ [(ERROR, SaveFailed (path_of file) (OpenFailed (path_of file)))])
       w).
Proof.
  intros Hw. unfold save_data, try_except, bind, gets, write_text.
  fold (path_of file). simpl. rewrite Hw. reflexivity.
Qed.




(** The hypothesis on the item names cannot be dropped: a name made of a
    high surrogate followed by a low one is written as two escapes, which
    the decoder reads back as the single character they encode together. *)
Remark surrogate_pair_is_read_as_one_character :
  Json.loads (JsonDump.dumps [([0xd800; 0xdc00]%N, 1)])
  = Some (as_object [([0x10000]%N, 1)]).
Proof. vm_compute. reflexivity. Qed.
(** ** More on the store *)

Section MoreDictFacts.
Context {V : Type}.
Implicit Types (d : dict V) (k : str) (v : V).






End MoreDictFacts.











(** [check_low_items] only reads: whatever its argument, it leaves the
    world as it found it.  Its result names every item at most once, in the
    order of the ledger, and grows with the threshold: an item listed for
    one threshold is listed for every larger one. *)
Theorem check_low_items_grows_with_threshold (t1 t2 : Z) (w : world) :
  0 <= t1 -> t1 <= t2 -> dict_wf (stock_data w) ->
  exists names1 names2,
    check_low_items (Some (PInt t1)) w = (Ret names1, w) /\
    check_low_items (Some (PInt t2)) w = (Ret names2, w) /\
    incl names1 names2 /\
    NoDup names1 /\
    (forall t, snd (check_low_items t w) = w).
Proof.
  intros H1 H12 Hwf. eexists _, _.
  split; [apply (check_low_items_value (PInt t1) w eq_refl H1)|].
  split; [apply (check_low_items_value (PInt t2) w eq_refl); simpl; lia|].
  simpl. split; [|split].
  - intros name Hin. apply in_map_iff in Hin.
    destruct Hin as [kv [<- Hin]]. apply filter_In in Hin.
    destruct Hin as [Hin Hlt]. apply in_map. apply filter_In.
    split; [assumption|]. apply Z.ltb_lt in Hlt. apply Z.ltb_lt. lia.
  - unfold dict_wf, dict_keys in Hwf. revert Hwf.
    induction (stock_data w) as [|[k v] d IH]; simpl; intros Hwf;
      [constructor|].
    inversion Hwf as [|? ? Hnin Hnd]; subst.
    destruct (v <? t1); simpl; [|auto].
    constructor; [|auto].
    intros Hin. apply Hnin. apply in_map_iff in Hin.
    destruct Hin as [kv [<- Hin]]. apply filter_In in Hin.
    apply in_map. tauto.
  - intros t. unfold check_low_items.
    destruct (negb _ || _); reflexivity.
Qed.

Lemma check_low_items_grows_with_threshold_witness :
  exists names1 names2,
    check_low_items (Some (PInt 5))
      (world_of [(pystr "apple", 3); (pystr "banana", 10)])
      = (Ret names1, world_of [(pystr "apple", 3); (pystr "banana", 10)]) /\
    check_low_items (Some (PInt 11))
      (world_of [(pystr "apple", 3); (pystr "banana", 10)])
      = (Ret names2, world_of [(pystr "apple", 3); (pystr "banana", 10)]) /\
    incl names1 names2 /\
    NoDup names1 /\
    (forall t,
       snd (check_low_items t
              (world_of [(pystr "apple", 3); (pystr "banana", 10)]))
       = world_of [(pystr "apple", 3); (pystr "banana", 10)]).
Proof.
  apply (check_low_items_grows_with_threshold 5 11
           (world_of [(pystr "apple", 3); (pystr "banana", 10)])).
  - lia.
  - lia.
  - unfold dict_wf. simpl.
    repeat constructor; simpl; intuition discriminate.
Defined.

(** A threshold that is no [int] is refused with a ValueError, like a
    negative one, and a [bool] is taken as 0 or 1; on a ledger without
    negative quantities the threshold 0 lists nothing. *)
Theorem check_low_items_threshold_edges (t : pyval) (w : world) :
  (isinstance_int t = false ->
   check_low_items (Some t) w = (Raise ThresholdInvalid, w)) /\
  exn_class ThresholdInvalid = ValueError /\
  check_low_items (Some (PBool true)) w = check_low_items (Some (PInt 1)) w /\
  (all_nonnegative (stock_data w) ->
   check_low_items (Some (PInt 0)) w = (Ret [], w)).
Proof.
  repeat split.
  - intros H. unfold check_low_items. now rewrite H.
  - intros Hnn. rewrite (check_low_items_value (PInt 0) w eq_refl)
      by (simpl; lia).
    f_equal. f_equal. simpl.
    unfold all_nonnegative in Hnn.
    induction Hnn as [|[k v] d Hv Hd IH]; [reflexivity|].
    simpl in *. destruct (v <? 0) eqn:E; [apply Z.ltb_lt in E; lia|].
    exact IH.
Qed.

Lemma check_low_items_threshold_edges_witness :
  check_low_items (Some (PStr (pystr "5"))) (world_of [(pystr "apple", 3)])
  = (Raise ThresholdInvalid, world_of [(pystr "apple", 3)]).
Proof.
  apply (check_low_items_threshold_edges (PStr (pystr "5"))
           (world_of [(pystr "apple", 3)])).
  reflexivity.
Defined.




(** An entry of quantity 0 (left by adding 0 of a new item, or read from a
    file) is an entry: [get_qty] gives 0 as for an item without entry, but
    removing from it fails with InsufficientStock, not NotFound, and
    [check_low_items] lists it for every positive threshold. *)
Theorem zero_entry_is_an_entry (item : str) (n t : Z) (w : world) :
  item <> [] -> dict_get (stock_data w) item = Some 0 -> 0 < n -> 0 < t ->
  get_qty (PStr item) w = (Ret 0, w) /\
  remove_item (PStr item) (PInt n) w
    = (Raise (NotEnoughStock item (PInt n)), w) /\
  kind_of (NotEnoughStock item (PInt n)) = InsufficientStock /\
  exists names,
    check_low_items (Some (PInt t)) w = (Ret names, w) /\ In item names.
Proof.
  intros Hne Hget Hn Ht. split; [|split; [|split; [reflexivity|]]].
  - rewrite (get_qty_value _ _ Hne). unfold dict_get_default.
    now rewrite Hget.
  - destruct (remove_item_cases item n w)
      as [[He _] | [(_ & Hle & _) | [(_ & _ & Hg & _)
         | [(_ & _ & _ & Hr) | (_ & _ & [q' [Hg Hle]] & _)]]]];
      try contradiction; try lia; try congruence.
    assert (q' = 0) by congruence. lia.
  - eexists. split;
      [apply (check_low_items_value (PInt t) w eq_refl); simpl; lia|].
    simpl. apply dict_get_some_in in Hget.
    change item with (fst (item, 0)). apply in_map. apply filter_In.
    split; [assumption|]. simpl. apply Z.ltb_lt. lia.
Qed.

Lemma zero_entry_is_an_entry_witness :
  get_qty (PStr (pystr "pen")) (world_of [(pystr "pen", 0)])
    = (Ret 0, world_of [(pystr "pen", 0)]) /\
  remove_item (PStr (pystr "pen")) (PInt 1) (world_of [(pystr "pen", 0)])
    = (Raise (NotEnoughStock (pystr "pen") (PInt 1)),
       world_of [(pystr "pen", 0)]) /\
  kind_of (NotEnoughStock (pystr "pen") (PInt 1)) = InsufficientStock /\
  exists names,
    check_low_items (Some (PInt 5)) (world_of [(pystr "pen", 0)])
      = (Ret names, world_of [(pystr "pen", 0)]) /\
    In (pystr "pen") names.
Proof.
  apply (zero_entry_is_an_entry (pystr "pen") 1 5
           (world_of [(pystr "pen", 0)])).
  - discriminate.
  - reflexivity.
  - lia.
  - lia.
Defined.


(** ** Further properties of the module *)

(** [get_qty] only reads: whatever its argument, it leaves the world as it
    found it, and for a non-empty name it returns the item's quantity, 0
    when the item has no entry. *)
Theorem get_qty_is_a_pure_read (item : pyval) (w : world) :
  snd (get_qty item w) = w /\
  (forall name, item = PStr name -> name <> [] ->
     fst (get_qty item w)
     = Ret (match dict_get (stock_data w) name with
            | Some q => q
            | None => 0
            end)).
Proof.
  split.
  - unfold get_qty.
    destruct (negb (isinstance_str item) || negb (str_truth (str_value item)));
      reflexivity.
  - intros name -> Hne. now rewrite (get_qty_value _ _ Hne).
Qed.



(** ** More on loading and saving *)

(** What the cleaning loop builds does not depend on the world it runs
    in. *)
Lemma clean_items_value_indep (B : builtins) (items : list (pyval * pyval)) :
  forall (cleaned : dict Z) (w1 w2 : world),
    fst (clean_items B items cleaned w1) = fst (clean_items B items cleaned w2).
Proof.
  induction items as [|[k v] items IH]; intros cleaned w1 w2; simpl.
  - reflexivity.
  - destruct (negb (isinstance_str k)).
    + unfold bind, logging, modify. simpl.
      specialize (IH cleaned
                    (with_log (log w1 ++ [(WARNING, SkippedKey k)]) w1)
                    (with_log (log w2 ++ [(WARNING, SkippedKey k)]) w2)).
      destruct (clean_items B items cleaned
                  (with_log (log w1 ++ [(WARNING, SkippedKey k)]) w1))
        as [[r1|e1] w1'];
      destruct (clean_items B items cleaned
                  (with_log (log w2 ++ [(WARNING, SkippedKey k)]) w2))
        as [[r2|e2] w2']; simpl in *; congruence.
    + unfold bind at 1 3. unfold try_except, bind, lift.
      destruct (PyInt.int B v) as [n|e]; simpl.
      * specialize (IH (dict_set cleaned (str_value k) n) w1 w2).
        destruct (clean_items B items (dict_set cleaned (str_value k) n) w1)
          as [[r1|e1] w1'];
        destruct (clean_items B items (dict_set cleaned (str_value k) n) w2)
          as [[r2|e2] w2']; simpl in *; congruence.
      * destruct (catches TypeError e || catches ValueError e);
          [|reflexivity].
        unfold logging, modify, ret. simpl.
        specialize (IH cleaned
                      (with_log
                         (log w1 ++ [(WARNING, SkippedValue (str_value k) v)]) w1)
                      (with_log
                         (log w2 ++ [(WARNING, SkippedValue (str_value k) v)]) w2)).
        destruct (clean_items B items cleaned
                    (with_log
                       (log w1 ++ [(WARNING, SkippedValue (str_value k) v)]) w1))
          as [[r1|e1] w1'];
        destruct (clean_items B items cleaned
                    (with_log
                       (log w2 ++ [(WARNING, SkippedValue (str_value k) v)]) w2))
          as [[r2|e2] w2']; simpl in *; congruence.
Qed.

(** The ledger [load_data] leaves, by what the path holds. *)
Lemma load_data_ledger (B : builtins) (file : option str) (w : world) :
  stock_data (snd (load_data B file w))
  = match node (disk w) (path_of file) with
    | Text text =>
        match Json.loads text with
        | Some (PDict items) =>
            match fst (clean_items B items [] w) with
            | Ret cleaned => cleaned
            | Raise _ => []
            end
        | _ => []
        end
    | _ => []
    end.
Proof.
  assert (Hsame : load_data B file w = load_data B (Some (path_of file)) w)
    by (destruct file; reflexivity).
  rewrite Hsame.
  destruct (node (disk w) (path_of file)) as [| | |text] eqn:Hn.
  - now rewrite load_data_missing.
  - unfold load_data, try_except, bind, json_load, bind, read_text.
    rewrite Hn. reflexivity.
  - unfold load_data, try_except, bind, json_load, bind, read_text.
    rewrite Hn. reflexivity.
  - destruct (Json.loads text) as [data|] eqn:Hl;
      [|now rewrite (load_data_invalid B _ text w Hn Hl)].
    destruct (isinstance_dict data) eqn:Hd.
    + destruct data; try discriminate.
      rewrite (load_data_object B _ text d w Hn Hl).
      destruct (clean_items B d [] w) as [[r|e] w']; reflexivity.
    + rewrite (load_data_not_object B _ text data w Hn Hl Hd).
      destruct data; try reflexivity. discriminate.
Qed.

(** [load_data] never writes: the files are as they were, and so is the
    output. *)
Lemma load_data_keeps_disk (B : builtins) (file : option str) (w : world) :
  disk (snd (load_data B file w)) = disk w /\
  stdout (snd (load_data B file w)) = stdout w.
Proof.
  assert (Hsame : load_data B file w = load_data B (Some (path_of file)) w)
    by (destruct file; reflexivity).
  rewrite Hsame.
  destruct (node (disk w) (path_of file)) as [| | |text] eqn:Hn.
  - rewrite load_data_missing by assumption. auto.
  - unfold load_data, try_except, bind, json_load, bind, read_text.
    rewrite Hn. auto.
  - unfold load_data, try_except, bind, json_load, bind, read_text.
    rewrite Hn. auto.
  - destruct (Json.loads text) as [data|] eqn:Hl;
      [|rewrite (load_data_invalid B _ text w Hn Hl); auto].
    destruct (isinstance_dict data) eqn:Hd.
    + destruct data; try discriminate.
      rewrite (load_data_object B _ text d w Hn Hl).
      destruct (clean_items_effect B d [] w (NoDup_nil _))
        as (r & w' & Hrun & _ & Hdk & Ho & _).
      rewrite Hrun. destruct r; simpl; auto.
    + rewrite (load_data_not_object B _ text data w Hn Hl Hd). auto.
Qed.

(** The ledger [load_data] leaves depends on nothing but what the file at
    the path holds: not on the ledger, the log or the output it finds, nor
    on other files.  So loading twice leaves what loading once leaves. *)
Theorem load_data_depends_on_file_only
    (B : builtins) (file : option str) (w1 w2 : world) :
  node (disk w1) (path_of file) = node (disk w2) (path_of file) ->
  stock_data (snd (load_data B file w1)) = stock_data (snd (load_data B file w2))
  /\ stock_data (snd (load_data B file (snd (load_data B file w1))))
     = stock_data (snd (load_data B file w1)).
Proof.
  assert (Hdep : forall wa wb,
            node (disk wa) (path_of file) = node (disk wb) (path_of file) ->
            stock_data (snd (load_data B file wa))
            = stock_data (snd (load_data B file wb))).
  { intros wa wb Hn. rewrite !load_data_ledger, Hn.
    destruct (node (disk wb) (path_of file)); try reflexivity.
    destruct (Json.loads content) as [[]|]; try reflexivity.
    now rewrite (clean_items_value_indep B d [] wa wb). }
  intros Hn. split; [now apply Hdep|].
  apply Hdep. now rewrite (proj1 (load_data_keeps_disk B file w1)).
Qed.

Lemma load_data_depends_on_file_only_witness :
  stock_data
    (snd (load_data ascii_builtins None
            (world_with_file default_file (Text example_text_json))))
  = stock_data
      (snd (load_data ascii_builtins None
              (with_stock [(pystr "pear", 4)]
                 (world_with_file default_file (Text example_text_json)))))
  /\ stock_data
       (snd (load_data ascii_builtins None
               (snd (load_data ascii_builtins None
                       (world_with_file default_file (Text example_text_json))))))
     = stock_data
         (snd (load_data ascii_builtins None
                 (world_with_file default_file (Text example_text_json)))).
Proof.
  apply (load_data_depends_on_file_only ascii_builtins None
           (world_with_file default_file (Text example_text_json))
           (with_stock [(pystr "pear", 4)]
              (world_with_file default_file (Text example_text_json)))).
  reflexivity.
Defined.

(** A file that exists but cannot be opened, or whose bytes are not UTF-8,
    is treated like one that is not JSON: the ledger is emptied and the
    error is logged, not raised. *)
Theorem load_data_unreadable_file
    (B : builtins) (file : option str) (w : world) :
  node (disk w) (path_of file) = Unopenable \/
  node (disk w) (path_of file) = Undecodable ->
  exists e w',
    load_data B file w = (Ret tt, w') /\
    stock_data w' = [] /\
    log w' = log w ++ [(ERROR, Unexpected e)] /\
    (e = OpenFailed (path_of file) \/ e = ReadUndecodable (path_of file)).
Proof.
  assert (Hsame : load_data B file w = load_data B (Some (path_of file)) w)
    by (destruct file; reflexivity).
  rewrite Hsame.
  intros [Hn | Hn]; eexists _, _;
    (split;
     [unfold load_data, try_except, bind, json_load, bind, read_text;
      rewrite Hn; reflexivity|]);
    simpl; auto.
Qed.

Lemma load_data_unreadable_file_witness :
  exists e w',
    load_data ascii_builtins None (world_with_file default_file Undecodable)
      = (Ret tt, w') /\
    stock_data w' = [] /\
    log w' = log (world_with_file default_file Undecodable)
             ++ [(ERROR, Unexpected e)] /\
    (e = OpenFailed (path_of None) \/ e = ReadUndecodable (path_of None)).
Proof.
  apply (load_data_unreadable_file ascii_builtins None
           (world_with_file default_file Undecodable)).
  right. reflexivity.
Defined.

(** An uncaught conversion error is an overflow. *)
Lemma int_uncaught_is_overflow (B : builtins) (v : pyval) (e : exn) :
  PyInt.int B v = Raise e ->
  catches TypeError e || catches ValueError e = false ->
  e = IntOverflowError.
Proof.
  intros Hint Hc.
  destruct v as [| | |f| | |]; simpl in Hint;
    try (inversion Hint; subst; discriminate).
  - destruct f; simpl in Hint;
      try (inversion Hint; subst; try discriminate; reflexivity).
    destruct (float_trunc B literal); inversion Hint; reflexivity.
  - destruct (PyInt.int_of_str B s); inversion Hint; subst; discriminate.
Qed.

(** One member whose value overflows stops the cleaning loop. *)
Lemma clean_items_overflow (B : builtins) (items : list (pyval * pyval)) :
  forall (name : str) (v : pyval) (cleaned : dict Z) (w : world),
    In (PStr name, v) items -> PyInt.int B v = Raise IntOverflowError ->
    fst (clean_items B items cleaned w) = Raise IntOverflowError.
Proof.
  induction items as [|[k0 v0] items IH];
    intros name v cleaned w Hin Hov; [contradiction|].
  simpl. destruct Hin as [Heq | Hin].
  - inversion Heq; subst. simpl.
    unfold bind at 1. unfold try_except, bind, lift. rewrite Hov. reflexivity.
  - destruct (negb (isinstance_str k0)).
    + unfold bind, logging, modify. simpl.
      specialize (IH name v cleaned
                    (with_log (log w ++ [(WARNING, SkippedKey k0)]) w) Hin Hov).
      destruct (clean_items B items cleaned
                  (with_log (log w ++ [(WARNING, SkippedKey k0)]) w))
        as [[r|e] w']; simpl in *; congruence.
    + unfold bind at 1. unfold try_except, bind, lift.
      destruct (PyInt.int B v0) as [n|e] eqn:Hint0; simpl.
      * specialize (IH name v (dict_set cleaned (str_value k0) n) w Hin Hov).
        destruct (clean_items B items (dict_set cleaned (str_value k0) n) w)
          as [[r|e] w']; simpl in *; congruence.
      * destruct (catches TypeError e || catches ValueError e) eqn:Hc.
        -- unfold logging, modify, ret. simpl.
           specialize (IH name v cleaned
                         (with_log
                            (log w ++ [(WARNING, SkippedValue (str_value k0) v0)])
                            w) Hin Hov).
           destruct (clean_items B items cleaned
                       (with_log
                          (log w ++ [(WARNING, SkippedValue (str_value k0) v0)])
                          w))
             as [[r|e'] w']; simpl in *; congruence.
        -- simpl. f_equal. now apply (int_uncaught_is_overflow B v0).
Qed.

Lemma load_data_returns (B : builtins) (file : option str) (w : world) :
  fst (load_data B file w) = Ret tt.
Proof.
  unfold load_data, try_except.
  match goal with
  | |- fst (match ?x with _ => _ end) = _ => destruct x as [[[]|e] w']
  end; [reflexivity|].
  destruct (catches FileNotFoundError e); [reflexivity|].
  destruct (catches JSONDecodeError e); [reflexivity|].
  now rewrite catches_Exception.
Qed.

(** A value that [int] cannot convert only costs its own member, with one
    exception: an infinite number.  [int] then raises OverflowError, which
    the loop does not catch, and the whole file is discarded: the ledger
    is left empty. *)
Theorem load_data_overflow_discards_file
    (B : builtins) (file : option str) (text : str)
    (items : list (pyval * pyval)) (name : str) (v : pyval) (w : world) :
  node (disk w) (path_of file) = Text text ->
  Json.loads text = Some (PDict items) ->
  In (PStr name, v) items -> PyInt.int B v = Raise IntOverflowError ->
  fst (load_data B file w) = Ret tt /\
  stock_data (snd (load_data B file w)) = [].
Proof.
  intros Hn Hl Hin Hov. split.
  - apply load_data_returns.
  - rewrite load_data_ledger, Hn, Hl.
    now rewrite (clean_items_overflow B items name v [] w Hin Hov).
Qed.

Lemma load_data_overflow_discards_file_witness :
  fst (load_data ascii_builtins None
         (world_with_file default_file
            (Text (json_text "{'a': 1, 'b': Infinity}")))) = Ret tt /\
  stock_data
    (snd (load_data ascii_builtins None
            (world_with_file default_file
               (Text (json_text "{'a': 1, 'b': Infinity}"))))) = [].
Proof.
  apply (load_data_overflow_discards_file ascii_builtins None
           (json_text "{'a': 1, 'b': Infinity}")
           [(PStr (pystr "a"), PInt 1); (PStr (pystr "b"), PFloat FInfinity)]
           (pystr "b") (PFloat FInfinity)
           (world_with_file default_file
              (Text (json_text "{'a': 1, 'b': Infinity}")))).
  - reflexivity.
  - vm_compute. reflexivity.
  - simpl. auto.
  - reflexivity.
Defined.

(** ** What a decoded object looks like *)

Module JsonObjects.
Import Json JsonFacts.

#[local] Arguments scan_number : simpl never.
#[local] Arguments scanstring : simpl never.
#[local] Arguments strip_prefix : simpl never.
#[local] Arguments skip_ws : simpl never.
#[local] Arguments pystr : simpl never.







End JsonObjects.






(** ** What each function can touch *)

Lemma log_grows_refl (w : world) : log_grows w w.
Proof. exists []. now rewrite List.app_nil_r. Qed.

Lemma log_grows_trans (w1 w2 w3 : world) :
  log_grows w1 w2 -> log_grows w2 w3 -> log_grows w1 w3.
Proof.
  intros [l1 H1] [l2 H2]. exists (l1 ++ l2).
  now rewrite H2, H1, List.app_assoc.
Qed.

Lemma log_grows_logged (w : world) (r : level * event) :
  log_grows w (with_log (log w ++ [r]) w).
Proof. now exists [r]. Qed.

Lemma add_item_frame (item qty : pyval) (logs : option (list event))
    (w : world) :
  disk (snd (add_item item qty logs w)) = disk w /\
  stdout (snd (add_item item qty logs w)) = stdout w /\
  log_grows w (snd (add_item item qty logs w)).
Proof.
  unfold add_item.
  destruct (negb (isinstance_str item) || negb (str_truth (str_value item)));
    [simpl; auto using log_grows_refl|].
  destruct (negb (isinstance_int qty)); [simpl; auto using log_grows_refl|].
  destruct (int_value qty <? 0); [simpl; auto using log_grows_refl|].
  simpl. repeat split. now eexists.
Qed.

Lemma remove_item_frame (item qty : pyval) (w : world) :
  disk (snd (remove_item item qty w)) = disk w /\
  stdout (snd (remove_item item qty w)) = stdout w /\
  log_grows w (snd (remove_item item qty w)).
Proof.
  destruct (remove_item_raises_unchanged item qty w) as [[e H] | [w' H]].
  - rewrite H. simpl. auto using log_grows_refl.
  - revert H. unfold remove_item.
    destruct (negb (isinstance_str item) || negb (str_truth (str_value item)));
      [discriminate|].
    destruct (negb (isinstance_int qty)); [discriminate|].
    destruct (int_value qty <=? 0); [discriminate|].
    unfold bind, gets, stock_item, dict_contains. simpl.
    destruct (dict_get (stock_data w) (str_value item)) as [q|] eqn:Hget; simpl;
      [|discriminate].
    rewrite Hget.
    destruct (q <? int_value qty); [discriminate|].
    cbv beta. rewrite Hget. simpl. rewrite dict_get_set_same.
    destruct (q - int_value qty =? 0); intros H; rewrite H;
      inversion H; simpl; repeat split; now eexists.
Qed.

Lemma clean_items_log (B : builtins) (items : list (pyval * pyval)) :
  forall (cleaned : dict Z) (w : world),
    log_grows w (snd (clean_items B items cleaned w)).
Proof.
  induction items as [|[k v] items IH]; intros cleaned w; simpl.
  - apply log_grows_refl.
  - destruct (negb (isinstance_str k)).
    + unfold bind, logging, modify. simpl.
      specialize (IH cleaned (with_log (log w ++ [(WARNING, SkippedKey k)]) w)).
      destruct (clean_items B items cleaned
                  (with_log (log w ++ [(WARNING, SkippedKey k)]) w))
        as [[r|e] w']; simpl in *;
        (eapply log_grows_trans; [apply log_grows_logged | exact IH]).
    + unfold bind at 1. unfold try_except, bind, lift.
      destruct (PyInt.int B v) as [n|e]; simpl.
      * specialize (IH (dict_set cleaned (str_value k) n) w).
        destruct (clean_items B items (dict_set cleaned (str_value k) n) w)
          as [[r|e] w']; exact IH.
      * destruct (catches TypeError e || catches ValueError e);
          [|apply log_grows_refl].
        unfold logging, modify, ret. simpl.
        specialize (IH cleaned
                      (with_log
                         (log w ++ [(WARNING, SkippedValue (str_value k) v)]) w)).
        destruct (clean_items B items cleaned
                    (with_log
                       (log w ++ [(WARNING, SkippedValue (str_value k) v)]) w))
          as [[r|e'] w']; simpl in *;
          (eapply log_grows_trans; [apply log_grows_logged | exact IH]).
Qed.

Lemma load_data_frame (B : builtins) (file : option str) (w : world) :
  disk (snd (load_data B file w)) = disk w /\
  stdout (snd (load_data B file w)) = stdout w /\
  log_grows w (snd (load_data B file w)).
Proof.
  assert (Hsame : load_data B file w = load_data B (Some (path_of file)) w)
    by (destruct file; reflexivity).
  rewrite Hsame.
  destruct (node (disk w) (path_of file)) as [| | |text] eqn:Hn.
  - rewrite load_data_missing by assumption. simpl.
    repeat split. now eexists.
  - unfold load_data, try_except, bind, json_load, bind, read_text.
    rewrite Hn. simpl. repeat split. now eexists.
  - unfold load_data, try_except, bind, json_load, bind, read_text.
    rewrite Hn. simpl. repeat split. now eexists.
  - destruct (Json.loads text) as [data|] eqn:Hl;
      [|rewrite (load_data_invalid B _ text w Hn Hl); simpl;
        repeat split; now eexists].
    destruct (isinstance_dict data) eqn:Hd.
    + destruct data; try discriminate.
      rewrite (load_data_object B _ text d w Hn Hl).
      destruct (clean_items_effect B d [] w (NoDup_nil _))
        as (r & w' & Hrun & _ & Hdk & Ho & _).
      pose proof (clean_items_log B d [] w) as Hlog.
      rewrite Hrun in *. simpl in Hlog.
      destruct r; simpl; repeat split; auto;
        (eapply log_grows_trans; [exact Hlog | now eexists]).
    + rewrite (load_data_not_object B _ text data w Hn Hl Hd). simpl.
      repeat split. now eexists.
Qed.

Lemma save_data_frame (file : option str) (w : world) :
  stock_data (snd (save_data file w)) = stock_data w /\
  stdout (snd (save_data file w)) = stdout w /\
  log_grows w (snd (save_data file w)) /\
  (forall p, writable (disk (snd (save_data file w))) p = writable (disk w) p) /\
  (forall p, p <> path_of file ->
     node (disk (snd (save_data file w))) p = node (disk w) p).
Proof.
  destruct (writable (disk w) (path_of file)) eqn:Hw.
  - rewrite (save_data_writable file w Hw). simpl.
    repeat split; [now eexists|].
    intros p Hp. apply str_eqb_neq in Hp. now rewrite Hp.
  - rewrite (save_data_unwritable file w Hw). simpl.
    repeat split. now eexists.
Qed.

(** Every function of the module keeps to its own part of the world.
    Only [save_data] touches the files, and of them only the one it is
    given; only [print_data] writes to the output; only [add_item],
    [remove_item] and [load_data] change the ledger; [get_qty] and
    [check_low_items] change nothing at all.  The log is only ever added
    to.  All of this holds for arguments of any type and whether the call
    returns or raises. *)
Theorem effects_are_confined (B : builtins) (w : world) :
  (forall item qty logs,
     let w' := snd (add_item item qty logs w) in
     disk w' = disk w /\ stdout w' = stdout w /\ log_grows w w') /\
  (forall item qty,
     let w' := snd (remove_item item qty w) in
     disk w' = disk w /\ stdout w' = stdout w /\ log_grows w w') /\
  (forall item, snd (get_qty item w) = w) /\
  (forall threshold, snd (check_low_items threshold w) = w) /\
  (let w' := snd (print_data w) in
   stock_data w' = stock_data w /\ disk w' = disk w /\ log w' = log w /\
   exists lines, stdout w' = stdout w ++ lines) /\
  (forall file,
     let w' := snd (load_data B file w) in
     disk w' = disk w /\ stdout w' = stdout w /\ log_grows w w') /\
  (forall file,
     let w' := snd (save_data file w) in
     stock_data w' = stock_data w /\ stdout w' = stdout w /\
     log_grows w w' /\
     (forall p, writable (disk w') p = writable (disk w) p) /\
     (forall p, p <> path_of file -> node (disk w') p = node (disk w) p)).
Proof.
  split; [intros; apply add_item_frame|].
  split; [intros; apply remove_item_frame|].
  split.
  { intros item. unfold get_qty.
    destruct (negb (isinstance_str item) || negb (str_truth (str_value item)));
      reflexivity. }
  split.
  { intros t. unfold check_low_items. destruct (negb _ || _); reflexivity. }
  split.
  { rewrite print_data_lines. simpl. repeat split. now eexists. }
  split; [intros; apply load_data_frame|].
  intros; apply save_data_frame.
Qed.

(** ** More on saving *)

Module JsonDumpFacts.
Import JsonDump.
Local Open Scope N_scope.









End JsonDumpFacts.








(** ** The script *)

Section ScriptFacts.
Variable B : builtins.
Variable isprintable : char -> bool.

Lemma statement_ret {A} (c : M A) (a : A) (w w' : world)
    (l : list main_record) :
  c w = (Ret a, w') -> statement c (w, l) = (Ret tt, (w', l)).
Proof. intros H. unfold statement. simpl. now rewrite H. Qed.

Lemma statement_raise {A} (c : M A) (e : exn) (w w' : world)
    (l : list main_record) :
  c w = (Raise e, w') -> statement c (w, l) = (Raise e, (w', l)).
Proof. intros H. unfold statement. simpl. now rewrite H. Qed.

Lemma call_ret {A} (c : M A) (a : A) (w w' : world) (l : list main_record) :
  c w = (Ret a, w') -> call c (w, l) = (Ret a, (w', l)).
Proof. intros H. unfold call. simpl. now rewrite H. Qed.

Lemma stocked_apple (d : dict Z) :
  dict_get (stocked d) (pystr "apple")
  = Some (dict_get_default d (pystr "apple") 0 + 10).
Proof.
  unfold stocked. cbv zeta.
  rewrite !dict_get_set_other by discriminate.
  apply dict_get_set_same.
Qed.

(** [remove_item] of more than there is. *)
Lemma remove_item_short (item : str) (qty q : Z) (w : world) :
  item <> [] -> 0 < qty -> dict_get (stock_data w) item = Some q -> q < qty ->
  remove_item (PStr item) (PInt qty) w
  = (Raise (NotEnoughStock item (PInt qty)), w).
Proof.
  intros Hne Hpos Hget Hlt.
  destruct (remove_item_cases item qty w)
    as [[He _] | [(_ & Hle & _) | [(_ & _ & Hg & _)
       | [(_ & _ & _ & Hr) | (_ & _ & [q' [Hg Hle]] & _)]]]];
    try contradiction; try lia; try congruence.
  assert (q' = q) by congruence. lia.
Qed.

Lemma main_steps (w : world) (l : list main_record) :
  main B isprintable (w, l)
  = script_bind (statement (save_data None))
      (fun _ => script_bind (statement (load_data B None))
                  (fun _ => statement print_data))
      (updated isprintable w, main_records w l).
Proof.
  unfold main.
  unfold script_bind at 1.
  rewrite (statement_ret _ _ _ _ _
             (add_item_ok (pystr "apple") (PInt 10) None w
                ltac:(discriminate) eq_refl ltac:(simpl; lia))).
  unfold script_bind at 1. unfold try_except_Exception at 1.
  rewrite (statement_ret _ _ _ _ _
             (add_item_ok (pystr "banana") (PInt 2) None _
                ltac:(discriminate) eq_refl ltac:(simpl; lia))).
  unfold script_bind at 1. unfold try_except_Exception at 1.
  rewrite (statement_ret _ _ _ _ _
             (add_item_ok (pystr "orange") (PInt 10) None _
                ltac:(discriminate) eq_refl ltac:(simpl; lia))).
  cbn [stock_data log with_log with_stock int_value disk stdout].
  fold (stocked (stock_data w)).
  unfold script_bind at 1. unfold try_except_Exception at 1.
  unfold updated, main_records. cbv zeta.
  set (a := dict_get_default (stock_data w) (pystr "apple") 0 + 10).
  destruct (a <? 3) eqn:Ea.
  - apply Z.ltb_lt in Ea.
    match goal with
    | |- context [statement (remove_item _ _) (?w3, _)] =>
        rewrite (statement_raise _ _ _ _ _
                   (remove_item_short (pystr "apple") 3 a w3
                      ltac:(discriminate) ltac:(lia)
                      (stocked_apple (stock_data w)) Ea))
    end.
    rewrite catches_Exception. unfold logging_error.
    cbn [fst snd log].
    unfold script_bind at 1.
    erewrite call_ret by (apply get_qty_value; discriminate).
    unfold script_bind at 1.
    erewrite statement_ret by reflexivity.
    unfold script_bind at 1.
    erewrite call_ret by (apply (check_low_items_value (PInt 5)); [reflexivity | simpl; lia]).
    unfold script_bind at 1.
    erewrite statement_ret by reflexivity.
    cbn [stock_data log with_log with_stock with_stdout int_value disk stdout].
    rewrite !List.length_app. cbn [List.length].
    replace (List.length (log w) + 1 + 1 + 1)%nat
      with (List.length (log w) + 3)%nat by lia.
    reflexivity.
  - apply Z.ltb_ge in Ea.
    match goal with
    | |- context [statement (remove_item _ _) (?w3, _)] =>
        rewrite (statement_ret _ _ _ _ _
                   (remove_item_ok (pystr "apple") (PInt 3) w3 a
                      ltac:(discriminate) eq_refl ltac:(simpl; lia)
                      (stocked_apple (stock_data w)) ltac:(simpl; lia)))
    end.
    unfold script_bind at 1.
    erewrite call_ret by (apply get_qty_value; discriminate).
    unfold script_bind at 1.
    erewrite statement_ret by reflexivity.
    unfold script_bind at 1.
    erewrite call_ret by (apply (check_low_items_value (PInt 5)); [reflexivity | simpl; lia]).
    unfold script_bind at 1.
    erewrite statement_ret by reflexivity.
    cbn [stock_data log with_log with_stock with_stdout int_value disk stdout].
    reflexivity.
Qed.

Lemma updated_disk (w : world) : disk (updated isprintable w) = disk w.
Proof. reflexivity. Qed.

(** [main] when the inventory file cannot be written. *)
Lemma main_unwritable (w : world) (l : list main_record) :
  writable (disk w) default_file = false ->
  main B isprintable (w, l)
  = (Raise (OpenFailed default_file),
     (with_log
        (log (updated isprintable w)
         ++ [(ERROR, SaveFailed default_file (OpenFailed default_file))])
        (updated isprintable w),
      main_records w l)).
Proof.
  intros Hw. rewrite main_steps. unfold script_bind at 1.
  now rewrite (statement_raise _ _ _ _ _
                 (save_data_unwritable None (updated isprintable w) Hw)).
Qed.

(** [main] when it can. *)
Lemma main_writable (w : world) (l : list main_record) :
  writable (disk w) default_file = true ->
  main B isprintable (w, l)
  = (Ret tt,
     (snd (print_data
             (snd (load_data B None (snd (save_data None (updated isprintable w)))))),
      main_records w l)).
Proof.
  intros Hw. rewrite main_steps. unfold script_bind at 1.
  rewrite (statement_ret _ _ _ _ _
             (save_data_writable None (updated isprintable w) Hw)).
  rewrite (save_data_writable None (updated isprintable w) Hw).
  cbn [snd]. unfold script_bind at 1.
  match goal with
  | |- context [statement (load_data B None) (?w1, _)] =>
      pose proof (load_data_returns B None w1) as Hload;
      destruct (load_data B None w1) as [r w2] eqn:Hrun
  end.
  simpl in Hload. subst r.
  rewrite (statement_ret _ _ _ _ _ Hrun).
  rewrite (statement_ret _ _ _ _ _ (print_data_lines w2)).
  now rewrite print_data_lines.
Qed.
End ScriptFacts.


Section ScriptTheorems.
Variable B : builtins.
Variable isprintable : char -> bool.


(** The handlers of the two additions in [main] never run: both calls are
    valid whatever the ledger holds.  The handler of the removal runs
    exactly when the ledger held fewer than -7 apples (a quantity only a
    file can bring in), the error being the lack of stock.  So [main] logs
    at most one record of its own, after the three additions. *)
Theorem main_error_handlers (w : world) (l : list main_record) :
  exists records,
    snd (snd (main B isprintable (w, l))) = l ++ records /\
    (forall n lv ev, In (n, lv, ev) records ->
       n = (List.length (log w) + 3)%nat /\ lv = ERROR /\
       ev = ErrorRemovingApple (NotEnoughStock (pystr "apple") (PInt 3))) /\
    (records = [] <->
     -7 <= dict_get_default (stock_data w) (pystr "apple") 0) /\
    (List.length records <= 1)%nat.
Proof.
  assert (Hrec : snd (snd (main B isprintable (w, l))) = main_records w l).
  { destruct (writable (disk w) default_file) eqn:Hw.
    - now rewrite (main_writable B isprintable w l Hw).
    - now rewrite (main_unwritable B isprintable w l Hw). }
  rewrite Hrec. unfold main_records.
  destruct (dict_get_default (stock_data w) (pystr "apple") 0 + 10 <? 3) eqn:Ea;
    [apply Z.ltb_lt in Ea | apply Z.ltb_ge in Ea].
  - eexists. split; [reflexivity|]. split; [|split].
    + intros n lv ev [H | []]. inversion H; auto.
    + split; [discriminate | lia].
    + simpl. lia.
  - exists []. split; [now rewrite List.app_nil_r|]. split; [|split].
    + intros n lv ev [].
    + split; [lia | reflexivity].
    + simpl. lia.
Qed.












End ScriptTheorems.



